(** * MMSI validation against the Indonesian numbering plan

    A shallow embedding of [validate_mmsi_indonesia.py]: the helpers
    [_extract_mid] and [_mid_in_range] and the classifier [validate_mmsi],
    together with the part of Python's [str] and [int] they rely on.

    A Python [str] is a sequence of Unicode code points, and three of the
    built-ins the classifier calls are defined on the Unicode character
    database rather than on ASCII: [str.strip] (white space), [str.isdigit]
    (characters with Numeric_Type Digit or Decimal) and [int] (which reads
    decimal digits only).  The model keeps that distinction. *)

From Stdlib Require Import List NArith ZArith Bool Ascii String DecimalString Lia.
Import ListNotations.

(** ** Unicode character classes (Unicode 14.0, the database of CPython 3.11) *)

Module Unicode.

(** An inclusive range of code points. *)
Definition in_range (c : N) (r : N * N) : bool :=
  (fst r <=? c)%N && (c <=? snd r)%N.

(** Characters for which [str.isspace] holds; [str.strip] removes these. *)
Definition whitespace : list (N * N) :=
  [(0x9, 0xD); (0x1C, 0x20); (0x85, 0x85); (0xA0, 0xA0); (0x1680, 0x1680);
   (0x2000, 0x200A); (0x2028, 0x2029); (0x202F, 0x202F); (0x205F, 0x205F);
   (0x3000, 0x3000)]%N.

Definition isspace (c : N) : bool := existsb (in_range c) whitespace.

(** Decimal digits (general category Nd) come in runs that start at a
    ZERO and count upwards: (first code point, length of the run). *)
Definition decimal_runs : list (N * N) :=
  [(0x30, 10); (0x660, 10); (0x6F0, 10); (0x7C0, 10); (0x966, 10);
   (0x9E6, 10); (0xA66, 10); (0xAE6, 10); (0xB66, 10); (0xBE6, 10);
   (0xC66, 10); (0xCE6, 10); (0xD66, 10); (0xDE6, 10); (0xE50, 10);
   (0xED0, 10); (0xF20, 10); (0x1040, 10); (0x1090, 10); (0x17E0, 10);
   (0x1810, 10); (0x1946, 10); (0x19D0, 10); (0x1A80, 10); (0x1A90, 10);
   (0x1B50, 10); (0x1BB0, 10); (0x1C40, 10); (0x1C50, 10); (0xA620, 10);
   (0xA8D0, 10); (0xA900, 10); (0xA9D0, 10); (0xA9F0, 10); (0xAA50, 10);
   (0xABF0, 10); (0xFF10, 10); (0x104A0, 10); (0x10D30, 10); (0x11066, 10);
   (0x110F0, 10); (0x11136, 10); (0x111D0, 10); (0x112F0, 10); (0x11450, 10);
   (0x114D0, 10); (0x11650, 10); (0x116C0, 10); (0x11730, 10); (0x118E0, 10);
   (0x11950, 10); (0x11C50, 10); (0x11D50, 10); (0x11DA0, 10); (0x16A60, 10);
   (0x16AC0, 10); (0x16B50, 10); (0x1D7CE, 50); (0x1E140, 10); (0x1E2F0, 10);
   (0x1E950, 10); (0x1FBF0, 10)]%N.

Definition in_run (c : N) (r : N * N) : bool :=
  (fst r <=? c)%N && (c <? fst r + snd r)%N.

(** The decimal value of a character, when it has one. *)
Definition to_decimal (c : N) : option N :=
  match find (in_run c) decimal_runs with
  | Some r => Some ((c - fst r) mod 10)%N
  | None => None
  end.

Definition isdecimal (c : N) : bool :=
  match to_decimal c with Some _ => true | None => false end.

(** Characters of Numeric_Type Digit that are not decimal digits:
    superscripts, subscripts, circled and parenthesised digits, ... *)
Definition digit_not_decimal : list (N * N) :=
  [(0xB2, 0xB3); (0xB9, 0xB9); (0x1369, 0x1371); (0x19DA, 0x19DA);
   (0x2070, 0x2070); (0x2074, 0x2079); (0x2080, 0x2089); (0x2460, 0x2468);
   (0x2474, 0x247C); (0x2488, 0x2490); (0x24EA, 0x24EA); (0x24F5, 0x24FD);
   (0x24FF, 0x24FF); (0x2776, 0x277E); (0x2780, 0x2788); (0x278A, 0x2792);
   (0x10A40, 0x10A43); (0x10E60, 0x10E68); (0x11052, 0x1105A);
   (0x1F100, 0x1F10A)]%N.

(** The per-character test behind [str.isdigit]. *)
Definition isdigit (c : N) : bool :=
  isdecimal c || existsb (in_range c) digit_not_decimal.

End Unicode.

(** ** The fragment of Python the classifier uses *)

(** A [str]: its code points, in order. *)
Definition pystr : Type := list N.

(** An ASCII literal of the source as a [str]. *)
Fixpoint lit (s : string) : pystr :=
  match s with
  | EmptyString => []
  | String a r => N_of_ascii a :: lit r
  end.

(** Exceptions that the modelled built-ins can raise. *)
Inductive exn : Type :=
| ValueError
| IndexError.

(** A call either returns a value or raises. *)
Inductive outcome (A : Type) : Type :=
| Return (a : A)
| Raise (e : exn).

Arguments Return {A} a.
Arguments Raise {A} e.

Definition bind {A B : Type} (m : outcome A) (k : A -> outcome B) : outcome B :=
  match m with
  | Return a => k a
  | Raise e => Raise e
  end.

Notation "x <- m ;; k" := (bind m (fun x => k))
  (at level 61, m at next level, right associativity).

(** [len(s)] *)
Definition len (s : pystr) : Z := Z.of_nat (List.length s).

(** [a == b] on strings. *)
Fixpoint str_eqb (a b : pystr) : bool :=
  match a, b with
  | [], [] => true
  | x :: a', y :: b' => (x =? y)%N && str_eqb a' b'
  | _, _ => false
  end.

(** [s.lstrip()], [s.rstrip()] and [s.strip()]: white space is dropped at
    both ends and kept inside. *)
Fixpoint str_lstrip (s : pystr) : pystr :=
  match s with
  | [] => []
  | c :: r => if Unicode.isspace c then str_lstrip r else s
  end.

Fixpoint str_rstrip (s : pystr) : pystr :=
  match s with
  | [] => []
  | c :: r =>
      match str_rstrip r with
      | [] => if Unicode.isspace c then [] else [c]
      | r' => c :: r'
      end
  end.

Definition str_strip (s : pystr) : pystr := str_rstrip (str_lstrip s).

(** [s.isdigit()]: at least one character, and every one a digit. *)
Definition str_isdigit (s : pystr) : bool :=
  match s with
  | [] => false
  | _ => forallb Unicode.isdigit s
  end.

(** [s.startswith(p)] and, for a tuple of prefixes, [s.startswith((p, q))]. *)
Fixpoint str_startswith (s p : pystr) : bool :=
  match p, s with
  | [], _ => true
  | x :: p', y :: s' => (x =? y)%N && str_startswith s' p'
  | _ :: _, [] => false
  end.

Definition str_startswith_any (s : pystr) (ps : list pystr) : bool :=
  existsb (str_startswith s) ps.

(** A slice bound as Python reads it: negative bounds count from the end,
    and every bound is clamped to the string. *)
Definition slice_bound (n i : Z) : Z :=
  if (i <? 0)%Z then Z.max 0 (i + n) else Z.min i n.

(** [s[lo:hi]] *)
Definition str_slice (s : pystr) (lo hi : Z) : pystr :=
  let l := slice_bound (len s) lo in
  let h := slice_bound (len s) hi in
  firstn (Z.to_nat (h - l)) (skipn (Z.to_nat l) s).

(** [s[i]]: a one-character string, or IndexError out of range. *)
Definition str_index (s : pystr) (i : Z) : outcome pystr :=
  let j := if (i <? 0)%Z then (i + len s)%Z else i in
  if (j <? 0)%Z then Raise IndexError
  else match nth_error s (Z.to_nat j) with
       | Some c => Return [c]
       | None => Raise IndexError
       end.

(** Reading a run of decimal digits, most significant first. *)
Fixpoint decimal_value (acc : Z) (s : pystr) : option Z :=
  match s with
  | [] => Some acc
  | c :: r =>
      match Unicode.to_decimal c with
      | Some d => decimal_value (10 * acc + Z.of_N d) r
      | None => None
      end
  end.

(** [int(s)], on the strings the program passes to it.  [_extract_mid]
    calls [int] only on a segment for which [isdigit] holds, so a sign,
    white space or an underscore cannot occur; on such a string [int]
    returns the decimal value when every character is a decimal digit and
    raises ValueError otherwise (and on the empty string). *)
Definition py_int (s : pystr) : outcome Z :=
  match s with
  | [] => Raise ValueError
  | _ => match decimal_value 0 s with
         | Some v => Return v
         | None => Raise ValueError
         end
  end.

(** [str(n)] for an integer. *)
Definition str_of_int (n : Z) : pystr :=
  lit (NilEmpty.string_of_int (Z.to_int n)).

(** How an f-string renders an [Optional[int]] field. *)
Definition fmt_mid (mid : option Z) : pystr :=
  match mid with
  | Some n => str_of_int n
  | None => lit "None"
  end.

(** ** The program *)

Definition MID_MIN : Z := 201.
Definition MID_MAX : Z := 775.
Definition VALID_FIRST_DIGITS : list pystr :=
  [lit "2"; lit "3"; lit "4"; lit "5"; lit "6"; lit "7"].

Record ValidationResult : Type := mkResult {
  is_valid : bool;
  category : pystr;
  note : pystr
}.

(** [_extract_mid(mmsi, start)] *)
Definition _extract_mid (mmsi : pystr) (start : Z) : outcome (option Z) :=
  let end_ := (start + 3)%Z in
  if (end_ >? len mmsi)%Z then Return None
  else
    let segment := str_slice mmsi start end_ in
    if negb (str_isdigit segment) then Return None
    else n <- py_int segment ;; Return (Some n).

(** [_mid_in_range(mid)] *)
Definition _mid_in_range (mid : option Z) : bool :=
  match mid with
  | None => false
  | Some m => (MID_MIN <=? m)%Z && (m <=? MID_MAX)%Z
  end.

(** [validate_mmsi(mmsi)]; the argument is [None] or a string. *)
Definition validate_mmsi (arg : option pystr) : outcome ValidationResult :=
  match arg with
  | None => Return (mkResult false (lit "unknown") (lit "MMSI kosong"))
  | Some original =>
    let mmsi := str_strip original in
    if str_eqb mmsi [] then
      Return (mkResult false (lit "unknown") (lit "MMSI kosong"))
    else if negb (str_isdigit mmsi) then
      Return (mkResult false (lit "unknown")
                (lit "Mengandung karakter non-digit: " ++ original))
    else if negb (len mmsi =? 9)%Z then
      Return (mkResult false (lit "unknown")
                (lit "Panjang bukan 9 digit: " ++ mmsi))
    else
      first_digit <- str_index mmsi 0 ;;
      if existsb (str_eqb first_digit) VALID_FIRST_DIGITS then
        mid <- _extract_mid mmsi 0 ;;
        if _mid_in_range mid then
          Return (mkResult true (lit "ship_station") (lit "MID " ++ fmt_mid mid))
        else
          Return (mkResult false (lit "ship_station")
                    (lit "MID " ++ fmt_mid mid ++ lit " di luar 201-775"))
      else if str_eqb first_digit (lit "8") then
        mid <- _extract_mid mmsi 1 ;;
        if _mid_in_range mid then
          Return (mkResult true (lit "handheld_vhf_dsc")
                    (lit "Prefix 8 dengan MID " ++ fmt_mid mid))
        else
          Return (mkResult false (lit "handheld_vhf_dsc")
                    (lit "Setelah 8 bukan MID 201-775 (MID=" ++ fmt_mid mid ++ lit ")"))
      else if str_eqb first_digit (lit "9") then
        if str_startswith mmsi (lit "970") then
          Return (mkResult true (lit "ais_sart") (lit "970xxxxxx (AIS-SART)"))
        else if str_startswith mmsi (lit "972") then
          Return (mkResult true (lit "mob_msld") (lit "972xxxxxx (MOB/MSLD)"))
        else if str_startswith mmsi (lit "974") then
          Return (mkResult true (lit "epirb_ais") (lit "974xxxxxx (EPIRB-AIS)"))
        else if str_startswith_any mmsi [lit "98"; lit "99"] then
          mid <- _extract_mid mmsi 2 ;;
          if _mid_in_range mid then
            Return (mkResult true (lit "auxiliary_craft")
                      (str_slice mmsi 0 2 ++ lit " + MID " ++ fmt_mid mid))
          else
            Return (mkResult false (lit "auxiliary_craft")
                      (lit "MID " ++ fmt_mid mid ++ lit " di luar 201-775"))
        else
          Return (mkResult false (lit "free_form")
                    (lit "Prefix '9' tetapi bukan 970/972/974 atau 98/99 + MID"))
      else if str_eqb first_digit (lit "0") then
        if str_startswith mmsi (lit "00") then
          mid <- _extract_mid mmsi 2 ;;
          if _mid_in_range mid then
            Return (mkResult true (lit "coast_station") (lit "00 + MID " ++ fmt_mid mid))
          else
            Return (mkResult false (lit "coast_station")
                      (lit "MID " ++ fmt_mid mid ++ lit " di luar 201-775"))
        else
          mid <- _extract_mid mmsi 1 ;;
          if _mid_in_range mid then
            Return (mkResult true (lit "group_call") (lit "0 + MID " ++ fmt_mid mid))
          else
            Return (mkResult false (lit "group_call")
                      (lit "MID " ++ fmt_mid mid ++ lit " di luar 201-775"))
      else
        Return (mkResult false (lit "unknown")
                  (lit "Prefix " ++ first_digit ++ lit " tidak dikenal"))
  end.

(** ** Vocabulary of the claims *)

(** A decimal digit in the sense of the numbering plan: ['0'] to ['9']. *)
Definition is_ascii_digit (c : N) : bool := (48 <=? c)%N && (c <=? 57)%N.

(** The value of such a digit. *)
Definition digit_val (c : N) : Z := Z.of_N c - 48.

(** A candidate identity: exactly nine decimal digits. *)
Definition nine_digits (s : pystr) : Prop :=
  List.length s = 9 /\ Forall (fun c => is_ascii_digit c = true) s.

(** The number written by the three digits at positions [i], [i+1], [i+2]. *)
Definition mid_at (s : pystr) (i : nat) : Z :=
  100 * digit_val (nth i s 0%N) + 10 * digit_val (nth (i + 1) s 0%N)
  + digit_val (nth (i + 2) s 0%N).

(** The same test as a program, for use in results. *)
Definition in_mid_range (m : Z) : bool := (201 <=? m)%Z && (m <=? 775)%Z.

(** The closed set of category tags. *)
Definition CATEGORIES : list pystr :=
  [lit "ship_station"; lit "handheld_vhf_dsc"; lit "ais_sart"; lit "mob_msld";
   lit "epirb_ais"; lit "auxiliary_craft"; lit "free_form";
   lit "coast_station"; lit "group_call"; lit "unknown"].

(** The characters of a string on which [isdigit] and [int] agree: every
    digit among them is a decimal digit. *)
Definition digits_are_decimal (s : pystr) : Prop :=
  Forall (fun c => Unicode.isdigit c = true -> Unicode.isdecimal c = true) s.

(** ** The batch runner

    What [analyze_csv] and [main] compute between reading the CSV file and
    writing the workbook.  The model starts from the [mmsi] column as
    [read_csv] delivers it with dtype "string", a missing value being
    [None], and from the number of columns the frame has once the three
    result columns are set; it ends with those columns and with the cells
    of the sheet that receive the fill. *)

(** [df["mmsi"].fillna("").str.strip()] *)
Definition clean_column (col : list (option pystr)) : list pystr :=
  map (fun v => str_strip (match v with Some s => s | None => [] end)) col.

(** [df["mmsi"].apply(validate_mmsi)]: one call per row, in order; an
    exception in a call ends the whole [apply]. *)
Fixpoint apply_validate (col : list pystr) : outcome (list ValidationResult) :=
  match col with
  | [] => Return []
  | v :: rest =>
      r <- validate_mmsi (Some v) ;;
      rs <- apply_validate rest ;;
      Return (r :: rs)
  end.

(** The loop over [enumerate(df["mmsi_valid"], start=2)]: the cells
    (row, column) that are filled, in the order of the assignments. *)
Fixpoint highlight (ncols : nat) (row_idx : Z) (valid : list bool)
  : list (Z * Z) :=
  match valid with
  | [] => []
  | is_valid :: rest =>
      (if negb is_valid
       then map (fun col_idx => (row_idx, Z.of_nat col_idx)) (seq 1 ncols)
       else [])
      ++ highlight ncols (row_idx + 1) rest
  end.

(** The frame that [analyze_csv] returns, with the filled cells beside. *)
Record Report : Type := mkReport {
  mmsi : list pystr;
  mmsi_valid : list bool;
  mmsi_category : list pystr;
  mmsi_note : list pystr;
  filled : list (Z * Z)
}.

(** [analyze_csv], from the column read to the frame returned. *)
Definition analyze_csv (ncols : nat) (col : list (option pystr))
  : outcome Report :=
  let mmsi := clean_column col in
  results <- apply_validate mmsi ;;
  let mmsi_valid := map is_valid results in
  Return (mkReport mmsi mmsi_valid (map category results) (map note results)
            (highlight ncols 2 mmsi_valid)).

(** [total = len(df)] and [invalid_count = (~df["mmsi_valid"]).sum()] of
    [main]. *)
Definition total (df : Report) : nat := List.length (mmsi df).

Definition invalid_count (df : Report) : nat :=
  List.length (filter negb (mmsi_valid df)).

(** ** The classifier on the inputs of the specification *)

Example ex_lower_bound :
  validate_mmsi (Some (lit "201000000"))
  = Return (mkResult true (lit "ship_station") (lit "MID 201")).
Proof. vm_compute. reflexivity. Qed.

Example ex_above_upper_bound :
  validate_mmsi (Some (lit "776000000"))
  = Return (mkResult false (lit "ship_station") (lit "MID 776 di luar 201-775")).
Proof. vm_compute. reflexivity. Qed.

Example ex_ais_sart :
  validate_mmsi (Some (lit "970123456"))
  = Return (mkResult true (lit "ais_sart") (lit "970xxxxxx (AIS-SART)")).
Proof. vm_compute. reflexivity. Qed.

Example ex_auxiliary :
  validate_mmsi (Some (lit "992011234"))
  = Return (mkResult true (lit "auxiliary_craft") (lit "99 + MID 201")).
Proof. vm_compute. reflexivity. Qed.

Example ex_auxiliary_mid_zero :
  validate_mmsi (Some (lit "990001234"))
  = Return (mkResult false (lit "auxiliary_craft") (lit "MID 0 di luar 201-775")).
Proof. vm_compute. reflexivity. Qed.

Example ex_coast :
  validate_mmsi (Some (lit "002015678"))
  = Return (mkResult true (lit "coast_station") (lit "00 + MID 201")).
Proof. vm_compute. reflexivity. Qed.

Example ex_leading_one :
  validate_mmsi (Some (lit "102015678"))
  = Return (mkResult false (lit "unknown") (lit "Prefix 1 tidak dikenal")).
Proof. vm_compute. reflexivity. Qed.

(** ** Facts about the character classes *)

(** SUPERSCRIPT TWO is a digit without a decimal value; ARABIC-INDIC DIGIT
    TWO is a decimal digit; NO-BREAK SPACE is white space. *)
Example superscript_two_class :
  Unicode.isdigit 0xB2 = true /\ Unicode.to_decimal 0xB2 = None.
Proof. split; reflexivity. Qed.

Example arabic_indic_two_class :
  Unicode.isdigit 0x662 = true /\ Unicode.to_decimal 0x662 = Some 2%N.
Proof. split; reflexivity. Qed.

Example no_break_space_class :
  Unicode.isspace 0xA0 = true /\ Unicode.isspace 0x200B = false.
Proof. split; reflexivity. Qed.

(** Below U+0080 the only digits are the decimal digits. *)
Lemma ascii_isdigit_isdecimal (c : N) :
  (c < 128)%N -> Unicode.isdigit c = true -> Unicode.isdecimal c = true.
Proof.
  intros Hc. unfold Unicode.isdigit.
  destruct (Unicode.isdecimal c); [reflexivity|]. cbn [orb].
  intros H. apply existsb_exists in H. destruct H as [r [Hr Hin]].
  assert (T : forallb (fun r => (128 <=? fst r)%N) Unicode.digit_not_decimal
              = true) by reflexivity.
  rewrite forallb_forall in T. specialize (T r Hr).
  unfold Unicode.in_range in Hin. apply andb_prop in Hin.
  destruct Hin as [Hlo _]. apply N.leb_le in Hlo, T. lia.
Qed.

Lemma ascii_digit_cases (c : N) :
  is_ascii_digit c = true ->
  (c = 48 \/ c = 49 \/ c = 50 \/ c = 51 \/ c = 52 \/
   c = 53 \/ c = 54 \/ c = 55 \/ c = 56 \/ c = 57)%N.
Proof.
  unfold is_ascii_digit. intros H.
  apply andb_prop in H. destruct H as [Hlo Hhi].
  apply N.leb_le in Hlo. apply N.leb_le in Hhi. lia.
Qed.

Ltac by_digit_cases H :=
  apply ascii_digit_cases in H;
  repeat (destruct H as [H | H]); subst; reflexivity.

Lemma to_decimal_ascii (c : N) :
  is_ascii_digit c = true -> Unicode.to_decimal c = Some (c - 48)%N.
Proof. intros H. by_digit_cases H. Qed.

Lemma isdigit_ascii (c : N) :
  is_ascii_digit c = true -> Unicode.isdigit c = true.
Proof. intros H. by_digit_cases H. Qed.

Lemma isspace_ascii (c : N) :
  is_ascii_digit c = true -> Unicode.isspace c = false.
Proof. intros H. by_digit_cases H. Qed.

Lemma digit_val_range (c : N) :
  is_ascii_digit c = true -> (0 <= digit_val c <= 9)%Z.
Proof.
  unfold is_ascii_digit, digit_val. intros H.
  apply andb_prop in H. destruct H as [Hlo Hhi].
  apply N.leb_le in Hlo. apply N.leb_le in Hhi. lia.
Qed.

(** ** Facts about the string operations *)

Lemma str_eqb_refl (s : pystr) : str_eqb s s = true.
Proof.
  induction s as [|c s IH]; simpl; [reflexivity|].
  rewrite N.eqb_refl. exact IH.
Qed.

Lemma str_eqb_eq (a b : pystr) : str_eqb a b = true <-> a = b.
Proof.
  split.
  - revert b. induction a as [|x a IH]; intros [|y b] H; simpl in H;
      try discriminate; [reflexivity|].
    apply andb_prop in H. destruct H as [Hxy Hab].
    apply N.eqb_eq in Hxy. apply IH in Hab. congruence.
  - intros ->. apply str_eqb_refl.
Qed.

Lemma str_eqb_nil (s : pystr) : str_eqb s [] = true <-> s = [].
Proof. apply str_eqb_eq. Qed.

Lemma str_rstrip_no_space (s : pystr) :
  Forall (fun c => Unicode.isspace c = false) s -> str_rstrip s = s.
Proof.
  induction 1 as [|c r Hc Hr IH]; simpl; [reflexivity|].
  rewrite IH. destruct r; [rewrite Hc|]; reflexivity.
Qed.

Lemma str_lstrip_no_space (s : pystr) :
  Forall (fun c => Unicode.isspace c = false) s -> str_lstrip s = s.
Proof.
  destruct 1 as [|c r Hc Hr]; simpl; [reflexivity|].
  rewrite Hc. reflexivity.
Qed.

Lemma str_strip_no_space (s : pystr) :
  Forall (fun c => Unicode.isspace c = false) s -> str_strip s = s.
Proof.
  intros H. unfold str_strip.
  rewrite (str_lstrip_no_space s H). apply str_rstrip_no_space, H.
Qed.

Lemma digits_no_space (s : pystr) :
  Forall (fun c => is_ascii_digit c = true) s ->
  Forall (fun c => Unicode.isspace c = false) s.
Proof. apply Forall_impl. exact isspace_ascii. Qed.

Lemma str_isdigit_digits (s : pystr) :
  s <> [] -> Forall (fun c => is_ascii_digit c = true) s ->
  str_isdigit s = true.
Proof.
  intros Hne H. destruct s as [|c r]; [congruence|].
  unfold str_isdigit. apply forallb_forall. intros x Hx.
  apply isdigit_ascii. rewrite Forall_forall in H. apply H, Hx.
Qed.

(** A slice of three characters that lies inside the string. *)
Lemma firstn3_skipn (s : pystr) (i : nat) :
  i + 3 <= List.length s ->
  firstn 3 (skipn i s) = [nth i s 0%N; nth (i + 1) s 0%N; nth (i + 2) s 0%N].
Proof.
  revert s. induction i as [|i IH]; intros s Hlen.
  - destruct s as [|a [|b [|c r]]]; simpl in Hlen; try lia. reflexivity.
  - destruct s as [|a r]; simpl in Hlen; [lia|].
    simpl. apply IH. lia.
Qed.

Lemma str_slice_three (s : pystr) (start : Z) :
  (0 <= start)%Z -> (start + 3 <= len s)%Z ->
  str_slice s start (start + 3)
  = [nth (Z.to_nat start) s 0%N; nth (Z.to_nat start + 1) s 0%N;
     nth (Z.to_nat start + 2) s 0%N].
Proof.
  intros H0 Hend. unfold str_slice, slice_bound.
  destruct (Z.ltb_spec start 0); [lia|].
  destruct (Z.ltb_spec (start + 3) 0); [lia|].
  replace (Z.min (start + 3) (len s) - Z.min start (len s))%Z with 3%Z by lia.
  replace (Z.min start (len s)) with start by lia.
  change (Z.to_nat 3) with 3.
  apply firstn3_skipn. unfold len in Hend. lia.
Qed.

Lemma nth_digit (s : pystr) (i : nat) :
  Forall (fun c => is_ascii_digit c = true) s -> i < List.length s ->
  is_ascii_digit (nth i s 0%N) = true.
Proof.
  intros H Hi. rewrite Forall_forall in H. apply H, nth_In, Hi.
Qed.

(** ** The helpers on well-formed input *)

(** On a slice of three decimal digits inside the string the helper
    returns the number they write. *)
Lemma extract_mid_digits (s : pystr) (start : Z) :
  Forall (fun c => is_ascii_digit c = true) s ->
  (0 <= start)%Z -> (start + 3 <= len s)%Z ->
  _extract_mid s start = Return (Some (mid_at s (Z.to_nat start))).
Proof.
  intros Hdig H0 Hend. unfold _extract_mid.
  destruct (Z.gtb_spec (start + 3) (len s)); [lia|].
  rewrite str_slice_three by assumption.
  assert (Hlen : Z.to_nat start + 3 <= List.length s) by (unfold len in Hend; lia).
  assert (Ha := nth_digit s (Z.to_nat start) Hdig ltac:(lia)).
  assert (Hb := nth_digit s (Z.to_nat start + 1) Hdig ltac:(lia)).
  assert (Hc := nth_digit s (Z.to_nat start + 2) Hdig ltac:(lia)).
  rewrite str_isdigit_digits by (try discriminate; repeat constructor; assumption).
  unfold py_int, decimal_value, bind. cbn [negb].
  rewrite (to_decimal_ascii _ Ha), (to_decimal_ascii _ Hb), (to_decimal_ascii _ Hc).
  do 2 f_equal. unfold mid_at, digit_val.
  apply digit_val_range in Ha, Hb, Hc. unfold digit_val in Ha, Hb, Hc. lia.
Qed.

(** The helper answers [None], and does not raise, when the slice would
    end past the string ... *)
Lemma extract_mid_past_end (s : pystr) (start : Z) :
  (len s < start + 3)%Z -> _extract_mid s start = Return None.
Proof.
  intros H. unfold _extract_mid.
  destruct (Z.gtb_spec (start + 3) (len s)); [reflexivity | lia].
Qed.

(** ... and when the slice holds a character that [isdigit] rejects. *)
Lemma extract_mid_not_isdigit (s : pystr) (start : Z) :
  str_isdigit (str_slice s start (start + 3)) = false ->
  _extract_mid s start = Return None.
Proof.
  intros H. unfold _extract_mid.
  destruct (start + 3 >? len s)%Z; [reflexivity|].
  rewrite H. reflexivity.
Qed.

(** The range check holds exactly for a present MID between 201 and 775. *)
Lemma mid_in_range_iff (mid : option Z) :
  _mid_in_range mid = true <-> exists m, mid = Some m /\ (201 <= m <= 775)%Z.
Proof.
  unfold _mid_in_range, MID_MIN, MID_MAX. destruct mid as [m|].
  - rewrite andb_true_iff, Z.leb_le, Z.leb_le. split.
    + intros H. exists m. split; [reflexivity | lia].
    + intros [m' [E H]]. inversion E; subst. lia.
  - split; [discriminate | intros [m [E _]]; discriminate].
Qed.

Lemma mid_in_range_some (m : Z) : _mid_in_range (Some m) = in_mid_range m.
Proof. reflexivity. Qed.

Lemma in_mid_range_iff (m : Z) : in_mid_range m = true <-> (201 <= m <= 775)%Z.
Proof.
  unfold in_mid_range. rewrite andb_true_iff, Z.leb_le, Z.leb_le. reflexivity.
Qed.

(** ** The dispatch on nine decimal digits *)

(** The helpers are kept folded while the classifier is evaluated. *)
Arguments _extract_mid : simpl never.
Arguments _mid_in_range : simpl never.
Arguments fmt_mid : simpl never.
Arguments str_slice : simpl never.

Lemma nine_digits_shape (s : pystr) :
  nine_digits s ->
  exists c0 c1 c2 c3 c4 c5 c6 c7 c8, s = [c0; c1; c2; c3; c4; c5; c6; c7; c8].
Proof.
  intros [Hlen _].
  do 9 (destruct s as [|? s]; [discriminate|]).
  destruct s; [|discriminate].
  repeat eexists.
Qed.

Lemma nine_digits_len (s : pystr) : nine_digits s -> len s = 9%Z.
Proof. intros [Hlen _]. unfold len. rewrite Hlen. reflexivity. Qed.

(** After the three precondition checks, which nine decimal digits pass,
    the classifier is left with the dispatch on the first character. *)
Ltac enter_dispatch s H :=
  let Hd := fresh "Hd" in
  let Hlen := fresh "Hlen" in
  assert (Hd : Forall (fun c => is_ascii_digit c = true) s) by apply H;
  assert (Hlen : len s = 9%Z) by (apply nine_digits_len, H);
  unfold validate_mmsi; cbv zeta;
  rewrite (str_strip_no_space s (digits_no_space s Hd));
  rewrite (str_isdigit_digits s) by (try exact Hd; intros ->; discriminate);
  rewrite !(extract_mid_digits s) by (try exact Hd; rewrite ?Hlen; lia);
  rewrite Hlen.


Lemma str_startswith_firstn (s p : pystr) :
  str_startswith s p = true <-> firstn (List.length p) s = p.
Proof.
  revert s. induction p as [|x p IH]; intros s.
  - destruct s; split; reflexivity.
  - destruct s as [|y s]; cbn [str_startswith firstn List.length].
    + split; discriminate.
    + rewrite andb_true_iff, N.eqb_eq, IH. split.
      * intros [-> ->]. reflexivity.
      * intros E. injection E as -> E. split; [reflexivity | exact E].
Qed.

Lemma str_startswith_false (s p : pystr) :
  firstn (List.length p) s <> p -> str_startswith s p = false.
Proof.
  intros H. destruct (str_startswith s p) eqn:E; [|reflexivity].
  apply str_startswith_firstn in E. contradiction.
Qed.

Arguments str_startswith : simpl never.
Arguments str_startswith_any : simpl never.
Arguments mid_at : simpl never.

(** Both arms of a MID-bearing rule give the rule's category, and the
    verdict is the range test on the MID. *)
Lemma mid_rule_result (m : Z) (cat n1 n2 : pystr) :
  exists r,
    (if _mid_in_range (Some m)
     then Return (mkResult true cat n1)
     else Return (mkResult false cat n2)) = Return r /\
    category r = cat /\
    (is_valid r = true <-> (201 <= m <= 775)%Z).
Proof.
  rewrite mid_in_range_some.
  destruct (in_mid_range m) eqn:E; eexists; (split; [reflexivity|]);
    (split; [reflexivity|]); cbn [is_valid];
    rewrite <- in_mid_range_iff, E; split; congruence.
Qed.

(** ** Claims about the dispatch *)

(** C3. Nine decimal digits with a first digit from 2 to 7 are classified
    as a ship station, and are valid exactly when the number written by
    digits 0 to 2 lies between 201 and 775. *)
Theorem ship_station_rule (s : pystr) :
  nine_digits s -> (50 <= nth 0 s 0 <= 55)%N ->
  exists r, validate_mmsi (Some s) = Return r /\
            category r = lit "ship_station" /\
            (is_valid r = true <-> (201 <= mid_at s 0 <= 775)%Z).
Proof.
  intros H Hfirst.
  enter_dispatch s H.
  destruct (nine_digits_shape s H)
    as (c0 & c1 & c2 & c3 & c4 & c5 & c6 & c7 & c8 & ->).
  cbn [nth] in Hfirst.
  assert (Hc : (c0 = 50 \/ c0 = 51 \/ c0 = 52 \/ c0 = 53 \/ c0 = 54 \/ c0 = 55)%N)
    by lia.
  repeat (destruct Hc as [Hc | Hc]); subst c0; cbn; apply mid_rule_result.
Qed.

Lemma ship_station_rule_witness :
  nine_digits (lit "201000000") /\
  (50 <= nth 0 (lit "201000000") 0 <= 55)%N /\
  exists r, validate_mmsi (Some (lit "201000000")) = Return r /\
            category r = lit "ship_station" /\
            (is_valid r = true <-> (201 <= mid_at (lit "201000000") 0 <= 775)%Z).
Proof.
  assert (Hn : nine_digits (lit "201000000"))
    by (split; [reflexivity | repeat constructor]).
  assert (Hf : (50 <= nth 0 (lit "201000000") 0 <= 55)%N) by (cbn; lia).
  split; [exact Hn|]. split; [exact Hf|].
  exact (ship_station_rule (lit "201000000") Hn Hf).
Defined.

(** C7. Nine decimal digits with first digit 8 are classified as a
    handheld VHF DSC station, and are valid exactly when the number written
    by digits 1 to 3 lies between 201 and 775. *)
Theorem handheld_rule (s : pystr) :
  nine_digits s -> nth 0 s 0%N = 56%N ->
  exists r, validate_mmsi (Some s) = Return r /\
            category r = lit "handheld_vhf_dsc" /\
            (is_valid r = true <-> (201 <= mid_at s 1 <= 775)%Z).
Proof.
  intros H Hfirst.
  enter_dispatch s H.
  destruct (nine_digits_shape s H)
    as (c0 & c1 & c2 & c3 & c4 & c5 & c6 & c7 & c8 & ->).
  cbn [nth] in Hfirst. subst c0. cbn. apply mid_rule_result.
Qed.

Lemma handheld_rule_witness :
  nine_digits (lit "852500001") /\
  nth 0 (lit "852500001") 0%N = 56%N /\
  exists r, validate_mmsi (Some (lit "852500001")) = Return r /\
            category r = lit "handheld_vhf_dsc" /\
            (is_valid r = true <-> (201 <= mid_at (lit "852500001") 1 <= 775)%Z).
Proof.
  assert (Hn : nine_digits (lit "852500001"))
    by (split; [reflexivity | repeat constructor]).
  split; [exact Hn|]. split; [reflexivity|].
  exact (handheld_rule (lit "852500001") Hn eq_refl).
Defined.

(** Prefix tests on a string whose leading characters are known. *)
Ltac eval_startswith :=
  repeat match goal with
  | |- context [str_startswith ?s ?p] =>
      let b := eval cbv in (str_startswith s p) in
      change (str_startswith s p) with b
  end.

(** C4. Nine decimal digits that begin with 970, 972 or 974 are valid, with
    category ais_sart, mob_msld and epirb_ais respectively, whatever the six
    digits that follow; they are never classified as free_form. *)
Theorem fixed_prefix_rule (s : pystr) :
  nine_digits s ->
  (firstn 3 s = lit "970" ->
   validate_mmsi (Some s)
   = Return (mkResult true (lit "ais_sart") (lit "970xxxxxx (AIS-SART)"))) /\
  (firstn 3 s = lit "972" ->
   validate_mmsi (Some s)
   = Return (mkResult true (lit "mob_msld") (lit "972xxxxxx (MOB/MSLD)"))) /\
  (firstn 3 s = lit "974" ->
   validate_mmsi (Some s)
   = Return (mkResult true (lit "epirb_ais") (lit "974xxxxxx (EPIRB-AIS)"))) /\
  (In (firstn 3 s) [lit "970"; lit "972"; lit "974"] ->
   forall r, validate_mmsi (Some s) = Return r ->
             is_valid r = true /\ category r <> lit "free_form").
Proof.
  intros H.
  assert (H970 : firstn 3 s = lit "970" ->
    validate_mmsi (Some s)
    = Return (mkResult true (lit "ais_sart") (lit "970xxxxxx (AIS-SART)"))).
  { intros Hp. enter_dispatch s H.
    destruct (nine_digits_shape s H)
      as (c0 & c1 & c2 & c3 & c4 & c5 & c6 & c7 & c8 & ->).
    injection Hp as -> -> ->. eval_startswith. reflexivity. }
  assert (H972 : firstn 3 s = lit "972" ->
    validate_mmsi (Some s)
    = Return (mkResult true (lit "mob_msld") (lit "972xxxxxx (MOB/MSLD)"))).
  { intros Hp. enter_dispatch s H.
    destruct (nine_digits_shape s H)
      as (c0 & c1 & c2 & c3 & c4 & c5 & c6 & c7 & c8 & ->).
    injection Hp as -> -> ->. eval_startswith. reflexivity. }
  assert (H974 : firstn 3 s = lit "974" ->
    validate_mmsi (Some s)
    = Return (mkResult true (lit "epirb_ais") (lit "974xxxxxx (EPIRB-AIS)"))).
  { intros Hp. enter_dispatch s H.
    destruct (nine_digits_shape s H)
      as (c0 & c1 & c2 & c3 & c4 & c5 & c6 & c7 & c8 & ->).
    injection Hp as -> -> ->. eval_startswith. reflexivity. }
  repeat split; try assumption.
  - destruct H0 as [E | [E | [E | []]]]; symmetry in E;
      [apply H970 in E | apply H972 in E | apply H974 in E];
      rewrite E in H1; injection H1 as <-; reflexivity.
  - destruct H0 as [E | [E | [E | []]]]; symmetry in E;
      [apply H970 in E | apply H972 in E | apply H974 in E];
      rewrite E in H1; injection H1 as <-; discriminate.
Qed.

Lemma fixed_prefix_rule_witness :
  nine_digits (lit "970123456") /\
  firstn 3 (lit "970123456") = lit "970" /\
  validate_mmsi (Some (lit "970123456"))
  = Return (mkResult true (lit "ais_sart") (lit "970xxxxxx (AIS-SART)")).
Proof.
  assert (Hn : nine_digits (lit "970123456"))
    by (split; [reflexivity | repeat constructor]).
  split; [exact Hn|]. split; [reflexivity|].
  exact (proj1 (fixed_prefix_rule (lit "970123456") Hn) eq_refl).
Defined.

(** C5. Nine decimal digits with first digit 9 that do not begin with 970,
    972 or 974: when they begin with 98 or 99 the category is
    auxiliary_craft and they are valid exactly when the number written by
    digits 2 to 4 lies between 201 and 775; otherwise the category is
    free_form and they are not valid. *)
Theorem nine_prefix_rule (s : pystr) :
  nine_digits s -> nth 0 s 0%N = 57%N ->
  firstn 3 s <> lit "970" -> firstn 3 s <> lit "972" ->
  firstn 3 s <> lit "974" ->
  (firstn 2 s = lit "98" \/ firstn 2 s = lit "99" ->
   exists r, validate_mmsi (Some s) = Return r /\
             category r = lit "auxiliary_craft" /\
             (is_valid r = true <-> (201 <= mid_at s 2 <= 775)%Z)) /\
  (firstn 2 s <> lit "98" -> firstn 2 s <> lit "99" ->
   validate_mmsi (Some s)
   = Return (mkResult false (lit "free_form")
               (lit "Prefix '9' tetapi bukan 970/972/974 atau 98/99 + MID"))).
Proof.
  intros H Hfirst N970 N972 N974.
  enter_dispatch s H.
  rewrite (str_startswith_false s (lit "970")) by exact N970.
  rewrite (str_startswith_false s (lit "972")) by exact N972.
  rewrite (str_startswith_false s (lit "974")) by exact N974.
  unfold str_startswith_any. cbn [existsb].
  destruct (nine_digits_shape s H)
    as (c0 & c1 & c2 & c3 & c4 & c5 & c6 & c7 & c8 & ->).
  cbn [nth] in Hfirst. subst c0.
  split.
  - intros Hp.
    assert (E : str_startswith [57; c1; c2; c3; c4; c5; c6; c7; c8]%N (lit "98")
                || (str_startswith [57; c1; c2; c3; c4; c5; c6; c7; c8]%N (lit "99")
                    || false) = true).
    { destruct Hp as [Hp | Hp].
      - apply (proj2 (str_startswith_firstn _ (lit "98"))) in Hp.
        rewrite Hp. reflexivity.
      - apply (proj2 (str_startswith_firstn _ (lit "99"))) in Hp.
        rewrite Hp. apply orb_true_r. }
    rewrite E. cbn. apply mid_rule_result.
  - intros N98 N99.
    rewrite (str_startswith_false _ (lit "98")) by exact N98.
    rewrite (str_startswith_false _ (lit "99")) by exact N99.
    cbn. reflexivity.
Qed.

Lemma nine_prefix_rule_witness :
  (exists r, validate_mmsi (Some (lit "992011234")) = Return r /\
             category r = lit "auxiliary_craft" /\
             (is_valid r = true <-> (201 <= mid_at (lit "992011234") 2 <= 775)%Z)) /\
  validate_mmsi (Some (lit "912345678"))
  = Return (mkResult false (lit "free_form")
              (lit "Prefix '9' tetapi bukan 970/972/974 atau 98/99 + MID")).
Proof.
  split.
  - refine (proj1 (nine_prefix_rule (lit "992011234") _ eq_refl _ _ _) _).
    + split; [reflexivity | repeat constructor].
    + discriminate.
    + discriminate.
    + discriminate.
    + right. reflexivity.
  - refine (proj2 (nine_prefix_rule (lit "912345678") _ eq_refl _ _ _) _ _).
    + split; [reflexivity | repeat constructor].
    + discriminate.
    + discriminate.
    + discriminate.
    + discriminate.
    + discriminate.
Defined.

(** C6. Nine decimal digits with first digit 0: when the second digit is 0
    too the category is coast_station and validity is the range test on the
    number written by digits 2 to 4; otherwise the category is group_call
    and validity is the range test on the number written by digits 1 to 3. *)
Theorem zero_prefix_rule (s : pystr) :
  nine_digits s -> nth 0 s 0%N = 48%N ->
  (nth 1 s 0%N = 48%N ->
   exists r, validate_mmsi (Some s) = Return r /\
             category r = lit "coast_station" /\
             (is_valid r = true <-> (201 <= mid_at s 2 <= 775)%Z)) /\
  (nth 1 s 0%N <> 48%N ->
   exists r, validate_mmsi (Some s) = Return r /\
             category r = lit "group_call" /\
             (is_valid r = true <-> (201 <= mid_at s 1 <= 775)%Z)).
Proof.
  intros H Hfirst.
  enter_dispatch s H.
  destruct (nine_digits_shape s H)
    as (c0 & c1 & c2 & c3 & c4 & c5 & c6 & c7 & c8 & ->).
  cbn [nth] in Hfirst |- *. subst c0.
  split.
  - intros ->. eval_startswith. cbn. apply mid_rule_result.
  - intros Hc1.
    rewrite (str_startswith_false _ (lit "00")).
    + cbn. apply mid_rule_result.
    + cbn. congruence.
Qed.

Lemma zero_prefix_rule_witness :
  (exists r, validate_mmsi (Some (lit "002015678")) = Return r /\
             category r = lit "coast_station" /\
             (is_valid r = true <-> (201 <= mid_at (lit "002015678") 2 <= 775)%Z)) /\
  (exists r, validate_mmsi (Some (lit "052500000")) = Return r /\
             category r = lit "group_call" /\
             (is_valid r = true <-> (201 <= mid_at (lit "052500000") 1 <= 775)%Z)).
Proof.
  split.
  - refine (proj1 (zero_prefix_rule (lit "002015678") _ eq_refl) eq_refl).
    split; [reflexivity | repeat constructor].
  - refine (proj2 (zero_prefix_rule (lit "052500000") _ eq_refl) _).
    + split; [reflexivity | repeat constructor].
    + discriminate.
Defined.

(** ** The result on arbitrary input *)

(** Walks through every conditional and every call that may raise. *)
Ltac split_paths :=
  repeat match goal with
  | |- context [bind ?m _] => destruct m; cbn [bind]
  | |- context [if ?b then _ else _] => destruct b
  end.

(** C9. Whatever the input, a result that the classifier returns carries
    one of the ten category tags, and carries a non-empty note whenever it
    is not valid. *)
Theorem result_invariant (arg : option pystr) (r : ValidationResult) :
  validate_mmsi arg = Return r ->
  In (category r) CATEGORIES /\ (is_valid r = false -> note r <> []).
Proof.
  unfold validate_mmsi. destruct arg as [original|]; cbv zeta.
  - split_paths; intros E; try discriminate E; injection E as <-;
      (split; [cbn; tauto | cbn; discriminate]).
  - intros E. injection E as <-. split; [cbn; tauto | cbn; discriminate].
Qed.

Lemma result_invariant_witness :
  validate_mmsi (Some (lit "12ab"))
  = Return (mkResult false (lit "unknown")
              (lit "Mengandung karakter non-digit: 12ab")) /\
  In (lit "unknown") CATEGORIES /\
  (false = false -> lit "Mengandung karakter non-digit: 12ab" <> []).
Proof.
  assert (E : validate_mmsi (Some (lit "12ab"))
              = Return (mkResult false (lit "unknown")
                          (lit "Mengandung karakter non-digit: 12ab")))
    by reflexivity.
  split; [exact E|].
  exact (result_invariant (Some (lit "12ab")) _ E).
Defined.

(** ** When the classifier raises *)

Section Sublists.
Variable P : N -> Prop.

Lemma Forall_firstn_str (n : nat) (s : pystr) :
  Forall P s -> Forall P (firstn n s).
Proof.
  revert s. induction n as [|n IH]; intros s H; [constructor|].
  destruct H as [|c r Hc Hr]; [constructor|].
  cbn [firstn]. constructor; [exact Hc | apply IH, Hr].
Qed.

Lemma Forall_skipn_str (n : nat) (s : pystr) :
  Forall P s -> Forall P (skipn n s).
Proof.
  revert s. induction n as [|n IH]; intros s H; [exact H|].
  destruct H as [|c r Hc Hr]; [constructor|].
  cbn [skipn]. apply IH, Hr.
Qed.

Lemma Forall_slice (s : pystr) (lo hi : Z) :
  Forall P s -> Forall P (str_slice s lo hi).
Proof.
  intros H. unfold str_slice. apply Forall_firstn_str, Forall_skipn_str, H.
Qed.

Lemma Forall_lstrip (s : pystr) : Forall P s -> Forall P (str_lstrip s).
Proof.
  induction 1 as [|c r Hc Hr IH]; cbn [str_lstrip]; [constructor|].
  destruct (Unicode.isspace c); [exact IH | constructor; assumption].
Qed.

Lemma Forall_rstrip (s : pystr) : Forall P s -> Forall P (str_rstrip s).
Proof.
  induction 1 as [|c r Hc Hr IH]; cbn [str_rstrip]; [constructor|].
  destruct (str_rstrip r) as [|x t].
  - destruct (Unicode.isspace c); repeat constructor; exact Hc.
  - constructor; assumption.
Qed.

Lemma Forall_strip (s : pystr) : Forall P s -> Forall P (str_strip s).
Proof. intros H. apply Forall_rstrip, Forall_lstrip, H. Qed.
End Sublists.

Lemma decimal_value_some (s : pystr) (acc : Z) :
  Forall (fun c => Unicode.isdecimal c = true) s ->
  exists v, decimal_value acc s = Some v.
Proof.
  intros H. revert acc.
  induction H as [|c r Hc Hr IH]; intros acc; cbn [decimal_value].
  - exists acc. reflexivity.
  - unfold Unicode.isdecimal in Hc.
    destruct (Unicode.to_decimal c) as [d|]; [apply IH | discriminate].
Qed.

(** With such characters the helper always returns. *)
Lemma extract_mid_returns (s : pystr) (start : Z) :
  digits_are_decimal s -> exists mid, _extract_mid s start = Return mid.
Proof.
  intros H. unfold _extract_mid.
  destruct (start + 3 >? len s)%Z; [eexists; reflexivity|].
  assert (Hseg := Forall_slice _ s start (start + 3) H).
  destruct (str_slice s start (start + 3)) as [|c r] eqn:E;
    [eexists; reflexivity|].
  unfold str_isdigit.
  destruct (forallb Unicode.isdigit (c :: r)) eqn:D; cbn [negb];
    [|eexists; reflexivity].
  assert (Hdec : Forall (fun x => Unicode.isdecimal x = true) (c :: r)).
  { rewrite forallb_forall in D. rewrite Forall_forall in Hseg |- *.
    intros x Hx. apply Hseg; [exact Hx | apply D, Hx]. }
  destruct (decimal_value_some (c :: r) 0 Hdec) as [v Hv].
  unfold py_int. rewrite Hv. eexists. reflexivity.
Qed.

(** The helper raises nothing but the ValueError of [int]. *)
Lemma extract_mid_exn (s : pystr) (start : Z) (e : exn) :
  _extract_mid s start = Raise e -> e = ValueError.
Proof.
  unfold _extract_mid, py_int.
  destruct (start + 3 >? len s)%Z; [discriminate|].
  destruct (negb (str_isdigit (str_slice s start (start + 3))));
    [discriminate|].
  destruct (str_slice s start (start + 3)) as [|c r]; cbn [bind];
    [congruence|].
  destruct (decimal_value 0 (c :: r)); cbn [bind]; congruence.
Qed.

Lemma str_index_first (s : pystr) :
  len s = 9%Z -> exists c, str_index s 0 = Return [c].
Proof.
  intros H. destruct s as [|c r]; [discriminate|].
  exists c. reflexivity.
Qed.

(** The classifier returns on [None], and on every string whose digits are
    all decimal digits; plain ASCII text is such a string. *)
Lemma validate_mmsi_returns (arg : option pystr) :
  (forall s, arg = Some s -> digits_are_decimal s) ->
  exists r, validate_mmsi arg = Return r.
Proof.
  intros H. unfold validate_mmsi. destruct arg as [original|];
    [|eexists; reflexivity].
  cbv zeta.
  assert (Hd : digits_are_decimal (str_strip original))
    by (apply Forall_strip, H; reflexivity).
  set (mmsi := str_strip original) in *.
  destruct (str_eqb mmsi []); [eexists; reflexivity|].
  destruct (negb (str_isdigit mmsi)); [eexists; reflexivity|].
  destruct (Z.eqb_spec (len mmsi) 9) as [L|L]; cbn [negb];
    [|eexists; reflexivity].
  destruct (str_index_first mmsi L) as [c ->]. cbn [bind].
  destruct (extract_mid_returns mmsi 0 Hd) as [m0 ->].
  destruct (extract_mid_returns mmsi 1 Hd) as [m1 ->].
  destruct (extract_mid_returns mmsi 2 Hd) as [m2 ->].
  cbn [bind]. split_paths; eexists; reflexivity.
Qed.


(** Whatever the input, the only exception is the ValueError of [int]. *)
Lemma validate_mmsi_exn (arg : option pystr) (e : exn) :
  validate_mmsi arg = Raise e -> e = ValueError.
Proof.
  unfold validate_mmsi. destruct arg as [original|]; [|discriminate].
  cbv zeta. set (mmsi := str_strip original).
  destruct (str_eqb mmsi []); [discriminate|].
  destruct (negb (str_isdigit mmsi)); [discriminate|].
  destruct (Z.eqb_spec (len mmsi) 9) as [L|L]; cbn [negb]; [|discriminate].
  destruct (str_index_first mmsi L) as [c ->]. cbn [bind].
  pose proof (extract_mid_exn mmsi 0 e) as X0.
  pose proof (extract_mid_exn mmsi 1 e) as X1.
  pose proof (extract_mid_exn mmsi 2 e) as X2.
  destruct (_extract_mid mmsi 0), (_extract_mid mmsi 1), (_extract_mid mmsi 2);
    cbn [bind]; split_paths; intros E; try discriminate E;
    injection E as <-;
    first [exact (X0 eq_refl) | exact (X1 eq_refl) | exact (X2 eq_refl)].
Qed.

(** C1. The classifier does raise: on the nine characters 2, SUPERSCRIPT
    TWO (U+00B2), 1, 0, 0, 0, 0, 0, 0 every precondition passes, since
    [isdigit] accepts the superscript, and [int] then rejects the segment. *)
Theorem validate_mmsi_raises :
  validate_mmsi (Some [50; 178; 49; 48; 48; 48; 48; 48; 48]%N)
  = Raise ValueError.
Proof. vm_compute. reflexivity. Qed.

(** C8. The helper neither returns a number nor the absent value on the
    three characters 2, SUPERSCRIPT TWO, 1: it raises. *)
Theorem extract_mid_raises :
  str_isdigit [50; 178; 49]%N = true /\
  _extract_mid [50; 178; 49]%N 0 = Raise ValueError.
Proof. split; vm_compute; reflexivity. Qed.

(** ** Trimming *)

Lemma str_lstrip_head (s : pystr) :
  match str_lstrip s with
  | [] => True
  | c :: _ => Unicode.isspace c = false
  end.
Proof.
  induction s as [|c r IH]; cbn [str_lstrip]; [exact I|].
  destruct (Unicode.isspace c) eqn:E; [exact IH | exact E].
Qed.

Lemma str_rstrip_head (c : N) (r : pystr) :
  Unicode.isspace c = false -> exists r', str_rstrip (c :: r) = c :: r'.
Proof.
  intros E. cbn [str_rstrip]. destruct (str_rstrip r) as [|x t].
  - rewrite E. exists []. reflexivity.
  - exists (x :: t). reflexivity.
Qed.

Lemma str_rstrip_idem (s : pystr) : str_rstrip (str_rstrip s) = str_rstrip s.
Proof.
  induction s as [|c r IH]; [reflexivity|].
  cbn [str_rstrip]. destruct (str_rstrip r) as [|x t] eqn:E.
  - destruct (Unicode.isspace c) eqn:Ec; [reflexivity|].
    cbn [str_rstrip]. rewrite Ec. reflexivity.
  - change (str_rstrip (c :: x :: t))
      with (match str_rstrip (x :: t) with
            | [] => if Unicode.isspace c then [] else [c]
            | r' => c :: r'
            end).
    rewrite IH. reflexivity.
Qed.

(** Trimming twice is trimming once. *)
Lemma str_strip_idem (s : pystr) : str_strip (str_strip s) = str_strip s.
Proof.
  unfold str_strip. pose proof (str_lstrip_head s) as Hh.
  destruct (str_lstrip s) as [|c r]; [reflexivity|].
  destruct (str_rstrip_head c r Hh) as [r' E].
  rewrite E. cbn [str_lstrip]. rewrite Hh, <- E. apply str_rstrip_idem.
Qed.

Lemma str_isdigit_exists (s : pystr) :
  Exists (fun c => Unicode.isdigit c = false) s -> str_isdigit s = false.
Proof.
  intros H. destruct s as [|c r]; [reflexivity|].
  unfold str_isdigit. apply not_true_is_false. intros F.
  rewrite forallb_forall in F. rewrite Exists_exists in H.
  destruct H as [x [Hx Hd]]. rewrite (F x Hx) in Hd. discriminate.
Qed.

(** ** Claims about the preconditions *)

(** C2, as the code has it.  The three checks run on the trimmed value, in
    the order empty, non-digit, length.  A trimmed value that is empty gives
    the empty outcome; one that holds a character [isdigit] rejects gives the
    non-digit outcome whatever its length, with the untrimmed input in the
    note; one made of decimal digits only, of a length other than 9, gives
    the wrong-length outcome.  Each outcome is invalid with category
    unknown. *)
Theorem precondition_order (s : pystr) :
  (str_strip s = [] ->
   validate_mmsi (Some s)
   = Return (mkResult false (lit "unknown") (lit "MMSI kosong"))) /\
  (Exists (fun c => Unicode.isdigit c = false) (str_strip s) ->
   validate_mmsi (Some s)
   = Return (mkResult false (lit "unknown")
               (lit "Mengandung karakter non-digit: " ++ s))) /\
  (str_strip s <> [] ->
   Forall (fun c => is_ascii_digit c = true) (str_strip s) ->
   List.length (str_strip s) <> 9 ->
   validate_mmsi (Some s)
   = Return (mkResult false (lit "unknown")
               (lit "Panjang bukan 9 digit: " ++ str_strip s))).
Proof.
  unfold validate_mmsi. cbv zeta. repeat split.
  - intros ->. reflexivity.
  - intros H.
    destruct (str_eqb (str_strip s) []) eqn:E.
    + apply str_eqb_nil in E. rewrite E in H. inversion H.
    + rewrite (str_isdigit_exists _ H). reflexivity.
  - intros Hne Hd Hlen.
    destruct (str_eqb (str_strip s) []) eqn:E.
    + apply str_eqb_nil in E. contradiction.
    + rewrite (str_isdigit_digits _ Hne Hd). cbn [negb].
      destruct (Z.eqb_spec (len (str_strip s)) 9) as [L|L]; [|reflexivity].
      unfold len in L. lia.
Qed.

Lemma precondition_order_witness :
  validate_mmsi (Some (lit "   "))
  = Return (mkResult false (lit "unknown") (lit "MMSI kosong")) /\
  validate_mmsi (Some (lit " 20100000a"))
  = Return (mkResult false (lit "unknown")
              (lit "Mengandung karakter non-digit:  20100000a")) /\
  validate_mmsi (Some (lit "2010 "))
  = Return (mkResult false (lit "unknown") (lit "Panjang bukan 9 digit: 2010")).
Proof.
  split; [|split].
  - apply (proj1 (precondition_order (lit "   "))). reflexivity.
  - apply (proj1 (proj2 (precondition_order (lit " 20100000a")))).
    change (str_strip (lit " 20100000a")) with (lit "20100000a").
    cbn [lit]. do 8 apply Exists_cons_tl. apply Exists_cons_hd. reflexivity.
  - apply (proj2 (proj2 (precondition_order (lit "2010 "))));
      change (str_strip (lit "2010 ")) with (lit "2010").
    + discriminate.
    + repeat constructor.
    + cbn. lia.
Defined.

(** C2 as stated fails: a string can hold a character that is no digit, a
    space, and still be classified, because the checks see it trimmed. *)
Lemma padded_identity_is_classified :
  Exists (fun c => is_ascii_digit c = false) (lit " 201000000 ") /\
  Exists (fun c => Unicode.isdigit c = false) (lit " 201000000 ") /\
  validate_mmsi (Some (lit " 201000000 "))
  = Return (mkResult true (lit "ship_station") (lit "MID 201")) /\
  validate_mmsi (Some (lit " 201000000 "))
  <> Return (mkResult false (lit "unknown")
               (lit "Mengandung karakter non-digit: " ++ lit " 201000000 ")).
Proof.
  split; [|split; [|split]].
  - apply Exists_cons_hd. reflexivity.
  - apply Exists_cons_hd. reflexivity.
  - vm_compute. reflexivity.
  - vm_compute. discriminate.
Qed.

(** C10, as the code has it.  The classifier works on the trimmed value,
    so it agrees with itself on the trimmed input, in the result and in
    raising, with one exception: when the trimmed value is not empty and
    fails [isdigit], both calls give the non-digit outcome, and each note
    ends with the argument of its own call, untrimmed. *)
Theorem classify_trimmed (s : pystr) :
  if negb (str_eqb (str_strip s) []) && negb (str_isdigit (str_strip s))
  then
    validate_mmsi (Some s)
    = Return (mkResult false (lit "unknown")
                (lit "Mengandung karakter non-digit: " ++ s)) /\
    validate_mmsi (Some (str_strip s))
    = Return (mkResult false (lit "unknown")
                (lit "Mengandung karakter non-digit: " ++ str_strip s))
  else
    validate_mmsi (Some s) = validate_mmsi (Some (str_strip s)).
Proof.
  unfold validate_mmsi. cbv zeta. rewrite str_strip_idem.
  destruct (str_eqb (str_strip s) []); cbn [negb andb]; [reflexivity|].
  destruct (str_isdigit (str_strip s)); cbn [negb]; [reflexivity|].
  split; reflexivity.
Qed.

(** C10 as stated fails: the note of the non-digit outcome quotes the
    input as it was passed, so the two results differ. *)
Lemma trimmed_note_differs :
  validate_mmsi (Some (lit " 20100000a"))
  = Return (mkResult false (lit "unknown")
              (lit "Mengandung karakter non-digit:  20100000a")) /\
  validate_mmsi (Some (str_strip (lit " 20100000a")))
  = Return (mkResult false (lit "unknown")
              (lit "Mengandung karakter non-digit: 20100000a")) /\
  validate_mmsi (Some (lit " 20100000a"))
  <> validate_mmsi (Some (str_strip (lit " 20100000a"))).
Proof.
  split; [|split].
  - vm_compute. reflexivity.
  - vm_compute. reflexivity.
  - vm_compute. discriminate.
Qed.

(** ** Further properties of the classifier *)

(** X1. Nine decimal digits with first digit 1 match no rule: the result is
    invalid, of category unknown, and its note names the prefix. *)
Theorem unknown_prefix_rule (s : pystr) :
  nine_digits s -> nth 0 s 0%N = 49%N ->
  validate_mmsi (Some s)
  = Return (mkResult false (lit "unknown") (lit "Prefix 1 tidak dikenal")).
Proof.
  intros H Hfirst.
  enter_dispatch s H.
  destruct (nine_digits_shape s H)
    as (c0 & c1 & c2 & c3 & c4 & c5 & c6 & c7 & c8 & ->).
  cbn [nth] in Hfirst. subst c0. reflexivity.
Qed.

Lemma unknown_prefix_rule_witness :
  nine_digits (lit "102015678") /\
  nth 0 (lit "102015678") 0%N = 49%N /\
  validate_mmsi (Some (lit "102015678"))
  = Return (mkResult false (lit "unknown") (lit "Prefix 1 tidak dikenal")).
Proof.
  assert (Hn : nine_digits (lit "102015678"))
    by (split; [reflexivity | repeat constructor]).
  split; [exact Hn|]. split; [reflexivity|].
  exact (unknown_prefix_rule (lit "102015678") Hn eq_refl).
Defined.

(** X2. The verdict, the category and the note depend on the first five
    digits only: two identities that agree there are classified alike. *)
Theorem trailing_digits_irrelevant (s s' : pystr) :
  nine_digits s -> nine_digits s' -> firstn 5 s = firstn 5 s' ->
  validate_mmsi (Some s) = validate_mmsi (Some s').
Proof.
  intros H H' E.
  enter_dispatch s H. enter_dispatch s' H'.
  destruct (nine_digits_shape s H)
    as (c0 & c1 & c2 & c3 & c4 & c5 & c6 & c7 & c8 & ->).
  destruct (nine_digits_shape s' H')
    as (d0 & d1 & d2 & d3 & d4 & d5 & d6 & d7 & d8 & ->).
  injection E as -> -> -> -> ->.
  reflexivity.
Qed.

Lemma trailing_digits_irrelevant_witness :
  validate_mmsi (Some (lit "525001234")) = validate_mmsi (Some (lit "525009999")).
Proof.
  apply trailing_digits_irrelevant.
  - split; [reflexivity | repeat constructor].
  - split; [reflexivity | repeat constructor].
  - reflexivity.
Defined.

Lemma valid_first_digit_range (c : N) :
  existsb (str_eqb [c]) VALID_FIRST_DIGITS = true -> (50 <= c <= 55)%N.
Proof.
  cbn. rewrite !orb_true_iff, !andb_true_iff, !N.eqb_eq. lia.
Qed.

Lemma str_eqb_single (c d : N) : str_eqb [c] [d] = true -> c = d.
Proof. intros H. apply str_eqb_eq in H. congruence. Qed.

Lemma str_startswith_any_two (s p q : pystr) :
  str_startswith_any s [p; q] = true ->
  firstn (List.length p) s = p \/ firstn (List.length q) s = q.
Proof.
  unfold str_startswith_any. cbn [existsb].
  rewrite !orb_true_iff, !str_startswith_firstn. intuition discriminate.
Qed.

(** Takes a returned result apart along the paths of the classifier: the
    hypothesis [H] is left as the equation of one path, with the tests
    passed so far recorded beside it. *)
Ltac walk H :=
  repeat match type of H with
  | context [bind (_extract_mid ?s ?i) _] =>
      let E := fresh "Em" in
      destruct (_extract_mid s i) eqn:E; cbn [bind] in H; [|discriminate H]
  | context [if ?b then _ else _] =>
      let E := fresh "Eb" in destruct b eqn:E
  end.

Ltac split_all := repeat match goal with |- _ /\ _ => split end.

Ltac prefix_from_tests :=
  match goal with
  | H : existsb (str_eqb [?c]) VALID_FIRST_DIGITS = true |- exists _, _ =>
      exists c; split; [reflexivity | exact (valid_first_digit_range c H)]
  | H : str_eqb [?c] (lit ?p) = true |- firstn 1 _ = _ =>
      exact (proj1 (str_eqb_eq [c] (lit p)) H)
  | H : str_startswith ?s ?p = true |- firstn _ _ = _ =>
      exact (proj1 (str_startswith_firstn s p) H)
  | H : str_startswith_any ?s [?p; ?q] = true |- _ \/ _ =>
      exact (str_startswith_any_two s p q H)
  | H : str_startswith ?s ?p = false |- firstn _ _ <> _ =>
      let F := fresh in
      intros F; apply (proj2 (str_startswith_firstn s p)) in F; congruence
  end.

(** X3. The category of a result tells how the trimmed input begins:
    ship_station a first character from 2 to 7, handheld_vhf_dsc an 8,
    ais_sart, mob_msld and epirb_ais the prefixes 970, 972 and 974,
    auxiliary_craft 98 or 99, free_form a 9, coast_station 00, and
    group_call a 0 that no second 0 follows. *)
Theorem category_reflects_prefix (s : pystr) (r : ValidationResult) :
  validate_mmsi (Some s) = Return r ->
  (category r = lit "ship_station" ->
   exists c, firstn 1 (str_strip s) = [c] /\ (50 <= c <= 55)%N) /\
  (category r = lit "handheld_vhf_dsc" -> firstn 1 (str_strip s) = lit "8") /\
  (category r = lit "ais_sart" -> firstn 3 (str_strip s) = lit "970") /\
  (category r = lit "mob_msld" -> firstn 3 (str_strip s) = lit "972") /\
  (category r = lit "epirb_ais" -> firstn 3 (str_strip s) = lit "974") /\
  (category r = lit "auxiliary_craft" ->
   firstn 2 (str_strip s) = lit "98" \/ firstn 2 (str_strip s) = lit "99") /\
  (category r = lit "free_form" ->
   firstn 1 (str_strip s) = lit "9" /\ is_valid r = false) /\
  (category r = lit "coast_station" -> firstn 2 (str_strip s) = lit "00") /\
  (category r = lit "group_call" ->
   firstn 1 (str_strip s) = lit "0" /\ firstn 2 (str_strip s) <> lit "00").
Proof.
  intros H. unfold validate_mmsi in H. cbv zeta in H.
  set (t := str_strip s) in *.
  destruct (str_eqb t []) eqn:E0.
  { injection H as <-.
    split_all; intros C; vm_compute in C; discriminate C. }
  destruct (negb (str_isdigit t)) eqn:E1.
  { injection H as <-.
    split_all; intros C; vm_compute in C; discriminate C. }
  destruct (Z.eqb_spec (len t) 9) as [L|L]; cbn [negb] in H.
  2:{ injection H as <-.
      split_all; intros C; vm_compute in C; discriminate C. }
  destruct t as [|c rest]; [discriminate L|].
  change (str_index (c :: rest) 0) with (Return [c]) in H. cbn [bind] in H.
  walk H; injection H as <-;
    split_all; intros C; vm_compute in C; try discriminate C;
    split_all; try reflexivity; prefix_from_tests.
Qed.

Lemma category_reflects_prefix_witness :
  firstn 2 (str_strip (lit " 992011234 ")) = lit "98" \/
  firstn 2 (str_strip (lit " 992011234 ")) = lit "99".
Proof.
  refine (proj1 (proj2 (proj2 (proj2 (proj2 (proj2
    (category_reflects_prefix (lit " 992011234 ")
       (mkResult true (lit "auxiliary_craft") (lit "99 + MID 201")) _)))))) _);
    reflexivity.
Defined.

(** X4. A valid verdict is given to well-formed input only: the argument
    is a string whose trimmed value has nine characters, all digits, and the
    verdict rests either on one of the fixed prefixes or on a MID that the
    helper extracted at offset 0, 1 or 2 and that lies between 201 and 775.
    The categories unknown and free_form are never valid. *)
Theorem valid_is_well_formed (arg : option pystr) (r : ValidationResult) :
  validate_mmsi arg = Return r -> is_valid r = true ->
  exists s,
    arg = Some s /\ len (str_strip s) = 9%Z /\
    str_isdigit (str_strip s) = true /\
    (In (category r) [lit "ais_sart"; lit "mob_msld"; lit "epirb_ais"] \/
     exists i m,
       (0 <= i <= 2)%Z /\ _extract_mid (str_strip s) i = Return (Some m) /\
       (201 <= m <= 775)%Z /\
       In (category r)
          [lit "ship_station"; lit "handheld_vhf_dsc"; lit "auxiliary_craft";
           lit "coast_station"; lit "group_call"]).
Proof.
  intros H V. destruct arg as [s|]; [|injection H as <-; discriminate V].
  exists s. unfold validate_mmsi in H. cbv zeta in H.
  set (t := str_strip s) in *.
  destruct (str_eqb t []) eqn:E0; [injection H as <-; discriminate V|].
  destruct (str_isdigit t) eqn:E1; cbn [negb] in H;
    [|injection H as <-; discriminate V].
  destruct (Z.eqb_spec (len t) 9) as [L|L]; cbn [negb] in H;
    [|injection H as <-; discriminate V].
  split; [reflexivity|]. split; [exact L|]. split; [reflexivity|].
  destruct t as [|c rest]; [discriminate L|].
  change (str_index (c :: rest) 0) with (Return [c]) in H. cbn [bind] in H.
  walk H; injection H as <-; try discriminate V;
    try (left; cbn; tauto);
    right;
    match goal with
    | Hm : _extract_mid _ ?i = Return ?a, Hr : _mid_in_range ?a = true |- _ =>
        apply mid_in_range_iff in Hr; destruct Hr as [m [-> Hr]];
        exists i, m; split; [lia|]; split; [exact Hm|]; split; [exact Hr|];
        cbn; tauto
    end.
Qed.

Lemma valid_is_well_formed_witness :
  exists s,
    Some (lit " 852500001") = Some s /\ len (str_strip s) = 9%Z /\
    str_isdigit (str_strip s) = true /\
    (In (lit "handheld_vhf_dsc") [lit "ais_sart"; lit "mob_msld"; lit "epirb_ais"] \/
     exists i m,
       (0 <= i <= 2)%Z /\ _extract_mid (str_strip s) i = Return (Some m) /\
       (201 <= m <= 775)%Z /\
       In (lit "handheld_vhf_dsc")
          [lit "ship_station"; lit "handheld_vhf_dsc"; lit "auxiliary_craft";
           lit "coast_station"; lit "group_call"]).
Proof.
  exact (valid_is_well_formed (Some (lit " 852500001"))
           (mkResult true (lit "handheld_vhf_dsc") (lit "Prefix 8 dengan MID 525"))
           eq_refl eq_refl).
Defined.

(** ** Further properties of the helper *)

Lemma to_decimal_lt (c d : N) : Unicode.to_decimal c = Some d -> (d < 10)%N.
Proof.
  unfold Unicode.to_decimal.
  destruct (find (Unicode.in_run c) Unicode.decimal_runs) as [r|];
    [|discriminate].
  intros E. injection E as <-. apply N.mod_lt. discriminate.
Qed.

(** Below U+0080 [isdigit] is the test for ['0'] to ['9']. *)
Lemma ascii_isdigit_eq (c : N) :
  (c < 128)%N -> Unicode.isdigit c = is_ascii_digit c.
Proof.
  intros Hc. destruct (is_ascii_digit c) eqn:A; [apply isdigit_ascii, A|].
  destruct (Unicode.isdigit c) eqn:D; [|reflexivity].
  apply (ascii_isdigit_isdecimal c Hc) in D.
  unfold Unicode.isdecimal, Unicode.to_decimal in D.
  destruct (find (Unicode.in_run c) Unicode.decimal_runs) as [r|] eqn:F;
    [|discriminate D].
  apply find_some in F. destruct F as [Hin Hrun].
  assert (T : forallb (fun r => ((fst r =? 48) && (snd r =? 10)
                                 || (128 <=? fst r))%N)
                Unicode.decimal_runs = true) by reflexivity.
  rewrite forallb_forall in T. specialize (T r Hin).
  unfold Unicode.in_run in Hrun. unfold is_ascii_digit in A.
  apply andb_prop in Hrun. destruct Hrun as [Hlo Hhi].
  apply N.leb_le in Hlo. apply N.ltb_lt in Hhi.
  apply andb_false_iff in A.
  apply orb_prop in T. destruct T as [T|T].
  - apply andb_prop in T. destruct T as [T1 T2].
    apply N.eqb_eq in T1, T2. rewrite T1, T2 in *.
    destruct A as [A|A]; [apply N.leb_gt in A | apply N.leb_gt in A]; lia.
  - apply N.leb_le in T. lia.
Qed.

Lemma str_slice_length (s : pystr) (lo : Z) :
  List.length (str_slice s lo (lo + 3)) <= 3.
Proof.
  unfold str_slice. rewrite length_firstn.
  apply Nat.le_trans with (1 := Nat.le_min_l _ _).
  unfold slice_bound.
  destruct (Z.ltb_spec lo 0), (Z.ltb_spec (lo + 3) 0); lia.
Qed.

Lemma nth_in_range (s : pystr) (i : nat) (P : N -> Prop) :
  Forall P s -> i < List.length s -> P (nth i s 0%N).
Proof.
  intros H Hi. rewrite Forall_forall in H. apply H, nth_In, Hi.
Qed.

Lemma decimal_value_three (a b c : N) :
  is_ascii_digit a = true -> is_ascii_digit b = true ->
  is_ascii_digit c = true ->
  py_int [a; b; c]
  = Return (100 * digit_val a + 10 * digit_val b + digit_val c)%Z.
Proof.
  intros Ha Hb Hc. unfold py_int, decimal_value.
  rewrite (to_decimal_ascii _ Ha), (to_decimal_ascii _ Hb), (to_decimal_ascii _ Hc).
  f_equal. unfold digit_val.
  apply digit_val_range in Ha, Hb, Hc. unfold digit_val in Ha, Hb, Hc. lia.
Qed.

(** X5. On plain ASCII text and a non-negative offset the helper never
    raises: it returns the number written by the three characters at the
    offset when they lie inside the string and are all decimal digits, and
    the absent value otherwise. *)
Theorem extract_mid_ascii (s : pystr) (start : Z) :
  Forall (fun c => (c < 128)%N) s -> (0 <= start)%Z ->
  _extract_mid s start
  = Return
      (if (start + 3 <=? len s)%Z
          && forallb is_ascii_digit
               [nth (Z.to_nat start) s 0%N; nth (Z.to_nat start + 1) s 0%N;
                nth (Z.to_nat start + 2) s 0%N]
       then Some (mid_at s (Z.to_nat start))
       else None).
Proof.
  intros Hs H0.
  destruct (Z.leb_spec (start + 3) (len s)) as [Hend|Hend]; cbn [andb].
  2:{ apply extract_mid_past_end. lia. }
  assert (Hlen : Z.to_nat start + 3 <= List.length s)
    by (unfold len in Hend; lia).
  set (i := Z.to_nat start) in *.
  pose proof (nth_in_range s i _ Hs ltac:(lia)) as Ha.
  pose proof (nth_in_range s (i + 1) _ Hs ltac:(lia)) as Hb.
  pose proof (nth_in_range s (i + 2) _ Hs ltac:(lia)) as Hc.
  cbv beta in Ha, Hb, Hc.
  unfold _extract_mid.
  destruct (Z.gtb_spec (start + 3) (len s)); [lia|].
  rewrite str_slice_three by assumption. fold i.
  unfold str_isdigit. cbn [forallb].
  rewrite (ascii_isdigit_eq _ Ha), (ascii_isdigit_eq _ Hb), (ascii_isdigit_eq _ Hc).
  destruct (is_ascii_digit (nth i s 0%N)) eqn:Da; cbn [andb negb];
    [|reflexivity].
  destruct (is_ascii_digit (nth (i + 1) s 0%N)) eqn:Db; cbn [andb negb];
    [|reflexivity].
  destruct (is_ascii_digit (nth (i + 2) s 0%N)) eqn:Dc; cbn [andb negb];
    [|reflexivity].
  rewrite (decimal_value_three _ _ _ Da Db Dc). reflexivity.
Qed.

Lemma extract_mid_ascii_witness :
  _extract_mid (lit "85250000x") 1 = Return (Some 525%Z) /\
  _extract_mid (lit "85250000x") 6 = Return None /\
  _extract_mid (lit "85250000x") 7 = Return None.
Proof.
  assert (Hs : Forall (fun c => (c < 128)%N) (lit "85250000x"))
    by (repeat constructor).
  split; [|split].
  - exact (extract_mid_ascii (lit "85250000x") 1 Hs ltac:(discriminate)).
  - exact (extract_mid_ascii (lit "85250000x") 6 Hs ltac:(discriminate)).
  - exact (extract_mid_ascii (lit "85250000x") 7 Hs ltac:(discriminate)).
Defined.

Lemma decimal_value_bound (s : pystr) (acc v : Z) :
  decimal_value acc s = Some v -> (0 <= acc)%Z ->
  (acc * 10 ^ len s <= v < (acc + 1) * 10 ^ len s)%Z.
Proof.
  revert acc. induction s as [|c r IH]; intros acc E Hacc.
  - cbn [decimal_value] in E. injection E as <-.
    change (len []) with 0%Z. lia.
  - cbn [decimal_value] in E.
    destruct (Unicode.to_decimal c) as [d|] eqn:Ed; [|discriminate E].
    apply to_decimal_lt in Ed. apply IH in E; [|lia].
    replace (len (c :: r)) with (len r + 1)%Z
      by (unfold len; cbn [List.length]; lia).
    rewrite Z.pow_add_r by (unfold len; lia).
    assert (Hp : (0 < 10 ^ len r)%Z)
      by (apply Z.pow_pos_nonneg; unfold len; lia).
    nia.
Qed.

(** X6. Whatever the string and the offset, a number that the helper
    returns lies between 0 and 999. *)
Theorem extract_mid_bounds (s : pystr) (start m : Z) :
  _extract_mid s start = Return (Some m) -> (0 <= m <= 999)%Z.
Proof.
  unfold _extract_mid.
  destruct (start + 3 >? len s)%Z; [discriminate|].
  destruct (negb (str_isdigit (str_slice s start (start + 3))));
    [discriminate|].
  pose proof (str_slice_length s start) as Hlen.
  set (segment := str_slice s start (start + 3)) in *.
  unfold py_int. destruct segment as [|a r] eqn:Es; [discriminate|].
  destruct (decimal_value 0 (a :: r)) as [v|] eqn:Ev; cbn [bind];
    [|discriminate].
  intros E. assert (v = m) by congruence. subst v.
  apply decimal_value_bound in Ev; [|lia].
  assert (Hpow : (10 ^ len (a :: r) <= 10 ^ 3)%Z)
    by (apply Z.pow_le_mono_r; unfold len; lia).
  change (10 ^ 3)%Z with 1000%Z in Hpow. lia.
Qed.

Lemma extract_mid_bounds_witness : (0 <= 999 <= 999)%Z.
Proof.
  exact (extract_mid_bounds (lit "899912345") 1 999 eq_refl).
Defined.

(** X7. Inside a string that passed [isdigit] the helper never answers
    with the absent value: at an offset from 0 to [len - 3] it returns a
    number or raises ValueError. *)
Theorem extract_mid_never_absent (s : pystr) (start : Z) :
  str_isdigit s = true -> (0 <= start)%Z -> (start + 3 <= len s)%Z ->
  (exists m, _extract_mid s start = Return (Some m)) \/
  _extract_mid s start = Raise ValueError.
Proof.
  intros Hd H0 Hend. unfold _extract_mid.
  destruct (Z.gtb_spec (start + 3) (len s)); [lia|].
  assert (Hall : Forall (fun c => Unicode.isdigit c = true) s).
  { destruct s as [|c r]; [discriminate Hd|].
    unfold str_isdigit in Hd. rewrite forallb_forall in Hd.
    apply Forall_forall. exact Hd. }
  assert (Hseg := Forall_slice _ s start (start + 3) Hall).
  rewrite str_slice_three in * by assumption.
  unfold str_isdigit.
  replace (forallb Unicode.isdigit _) with true
    by (symmetry; apply forallb_forall; apply Forall_forall; exact Hseg).
  cbn [negb]. unfold py_int.
  destruct (decimal_value 0 _) as [v|]; cbn [bind].
  - left. exists v. reflexivity.
  - right. reflexivity.
Qed.

Lemma extract_mid_never_absent_witness :
  (exists m, _extract_mid [56; 178; 49; 48; 49; 48; 48; 48; 48]%N 2
             = Return (Some m)) \/
  _extract_mid [56; 178; 49; 48; 49; 48; 48; 48; 48]%N 2 = Raise ValueError.
Proof.
  apply extract_mid_never_absent.
  - reflexivity.
  - discriminate.
  - discriminate.
Defined.

(** ** Blank input and exceptions *)

Lemma str_lstrip_blank (s : pystr) :
  Forall (fun c => Unicode.isspace c = true) s -> str_lstrip s = [].
Proof.
  induction 1 as [|c r Hc Hr IH]; cbn [str_lstrip]; [reflexivity|].
  rewrite Hc. exact IH.
Qed.

(** X8. A string of white space only, of any length, is classified like a
    missing value: invalid, category unknown, note "MMSI kosong". *)
Theorem blank_input (s : pystr) :
  Forall (fun c => Unicode.isspace c = true) s ->
  validate_mmsi (Some s) = validate_mmsi None /\
  validate_mmsi (Some s)
  = Return (mkResult false (lit "unknown") (lit "MMSI kosong")).
Proof.
  intros H. unfold validate_mmsi, str_strip. cbv zeta.
  rewrite (str_lstrip_blank s H). split; reflexivity.
Qed.

Lemma blank_input_witness :
  validate_mmsi (Some [32; 9; 160; 12288]%N) = validate_mmsi None /\
  validate_mmsi (Some [32; 9; 160; 12288]%N)
  = Return (mkResult false (lit "unknown") (lit "MMSI kosong")).
Proof.
  apply blank_input. repeat constructor.
Defined.

Lemma len_nine_shape (t : pystr) :
  len t = 9%Z ->
  exists c0 c1 c2 c3 c4 c5 c6 c7 c8, t = [c0; c1; c2; c3; c4; c5; c6; c7; c8].
Proof.
  unfold len. intros H.
  do 9 (destruct t as [|? t]; [cbn in H; lia|]).
  destruct t; [|cbn in H; lia].
  repeat eexists.
Qed.

Lemma decimal_value_none (s : pystr) (acc : Z) :
  decimal_value acc s = None ->
  exists c, In c s /\ Unicode.isdecimal c = false.
Proof.
  revert acc. induction s as [|c r IH]; intros acc E;
    cbn [decimal_value] in E; [discriminate E|].
  destruct (Unicode.to_decimal c) as [d|] eqn:Ed.
  - destruct (IH _ E) as [x [Hx Hd]]. exists x. split; [right; exact Hx | exact Hd].
  - exists c. split; [left; reflexivity|].
    unfold Unicode.isdecimal. rewrite Ed. reflexivity.
Qed.

(** When the helper raises, its segment holds a digit that is not a
    decimal digit. *)
Lemma extract_mid_raise_inv (s : pystr) (start : Z) (e : exn) :
  _extract_mid s start = Raise e ->
  exists c, In c (str_slice s start (start + 3)) /\
            Unicode.isdigit c = true /\ Unicode.isdecimal c = false.
Proof.
  unfold _extract_mid.
  destruct (start + 3 >? len s)%Z; [discriminate|].
  destruct (str_isdigit (str_slice s start (start + 3))) eqn:D; cbn [negb];
    [|discriminate].
  unfold py_int.
  destruct (str_slice s start (start + 3)) as [|a r]; [discriminate D|].
  destruct (decimal_value 0 (a :: r)) as [v|] eqn:Ev; cbn [bind];
    [discriminate|].
  intros _. destruct (decimal_value_none _ _ Ev) as [c [Hin Hdec]].
  exists c. split; [exact Hin|]. split; [|exact Hdec].
  unfold str_isdigit in D. rewrite forallb_forall in D. apply D, Hin.
Qed.

Ltac walk_exn H :=
  repeat match type of H with
  | context [bind (_extract_mid ?s ?i) _] =>
      let E := fresh "Em" in
      destruct (_extract_mid s i) eqn:E; cbn [bind] in H
  | context [if ?b then _ else _] =>
      let E := fresh "Eb" in destruct b eqn:E
  end.

(** X9. The classifier raises nothing but ValueError, and only on a string
    whose trimmed value has nine characters that all pass [isdigit] while
    one of the first five is a digit without a decimal value, such as a
    superscript. *)
Theorem raises_only_on_non_decimal_digit (arg : option pystr) (e : exn) :
  validate_mmsi arg = Raise e ->
  e = ValueError /\
  exists s c,
    arg = Some s /\ len (str_strip s) = 9%Z /\
    str_isdigit (str_strip s) = true /\
    In c (firstn 5 (str_strip s)) /\
    Unicode.isdigit c = true /\ Unicode.isdecimal c = false.
Proof.
  intros H. split; [exact (validate_mmsi_exn arg e H)|].
  destruct arg as [s|]; [|discriminate H].
  exists s. unfold validate_mmsi in H. cbv zeta in H.
  set (t := str_strip s) in *.
  destruct (str_eqb t []) eqn:E0; [discriminate H|].
  destruct (str_isdigit t) eqn:E1; cbn [negb] in H; [|discriminate H].
  destruct (Z.eqb_spec (len t) 9) as [L|L]; cbn [negb] in H; [|discriminate H].
  destruct (len_nine_shape t L)
    as (c0 & c1 & c2 & c3 & c4 & c5 & c6 & c7 & c8 & Et).
  rewrite Et in *. clear Et.
  change (str_index [c0; c1; c2; c3; c4; c5; c6; c7; c8] 0)
    with (Return [c0]) in H.
  cbn [bind] in H.
  walk_exn H; try discriminate H;
    match goal with
    | Hm : _extract_mid _ _ = Raise _ |- _ =>
        apply extract_mid_raise_inv in Hm;
        destruct Hm as [c [Hin [Hdig Hdec]]];
        exists c; vm_compute in Hin;
        (split; [reflexivity|]); (split; [reflexivity|]);
        (split; [reflexivity|]); (split; [cbn; tauto|]);
        split; assumption
    end.
Qed.

Lemma raises_only_on_non_decimal_digit_witness :
  ValueError = ValueError /\
  exists s c,
    Some [50; 178; 49; 48; 48; 48; 48; 48; 48]%N = Some s /\
    len (str_strip s) = 9%Z /\
    str_isdigit (str_strip s) = true /\
    In c (firstn 5 (str_strip s)) /\
    Unicode.isdigit c = true /\ Unicode.isdecimal c = false.
Proof.
  exact (raises_only_on_non_decimal_digit
           (Some [50; 178; 49; 48; 48; 48; 48; 48; 48]%N) ValueError eq_refl).
Defined.

(** X10. On a missing value and on plain ASCII text the classifier always
    returns a result. *)
Theorem returns_on_plain_text (arg : option pystr) :
  (forall s, arg = Some s -> Forall (fun c => (c < 128)%N) s) ->
  exists r, validate_mmsi arg = Return r.
Proof.
  intros H. apply validate_mmsi_returns. intros s E.
  unfold digits_are_decimal. generalize (H s E).
  apply Forall_impl. exact ascii_isdigit_isdecimal.
Qed.

Lemma returns_on_plain_text_witness :
  exists r, validate_mmsi (Some (lit "+62 811-000")) = Return r.
Proof.
  apply returns_on_plain_text. intros s E. injection E as <-.
  repeat constructor.
Defined.

(** ** The batch runner *)

Lemma apply_validate_nth (col : list pystr) (rs : list ValidationResult) :
  apply_validate col = Return rs ->
  List.length rs = List.length col /\
  forall i v, nth_error col i = Some v ->
    exists r, nth_error rs i = Some r /\ validate_mmsi (Some v) = Return r.
Proof.
  revert rs. induction col as [|v0 rest IH]; intros rs H; cbn [apply_validate] in H.
  - injection H as <-. split; [reflexivity|].
    intros [|i] v E; discriminate E.
  - destruct (validate_mmsi (Some v0)) as [r0|e] eqn:E0; cbn [bind] in H;
      [|discriminate H].
    destruct (apply_validate rest) as [rs'|e] eqn:E1; cbn [bind] in H;
      [|discriminate H].
    injection H as <-. destruct (IH rs' eq_refl) as [Hlen Hnth].
    split; [cbn [List.length]; rewrite Hlen; reflexivity|].
    intros [|i] v E; cbn [nth_error] in E |- *.
    + injection E as <-. exists r0. split; [reflexivity | exact E0].
    + apply Hnth, E.
Qed.




Lemma highlight_in (ncols : nat) (valid : list bool) (row_idx r c : Z) :
  In (r, c) (highlight ncols row_idx valid) <->
  (1 <= c <= Z.of_nat ncols)%Z /\
  exists i, r = (row_idx + Z.of_nat i)%Z /\ nth_error valid i = Some false.
Proof.
  revert row_idx. induction valid as [|b rest IH]; intros row_idx;
    cbn [highlight].
  - split; [intros [] | intros [_ [[|i] [_ E]]]; discriminate E].
  - rewrite in_app_iff, IH. split.
    + intros [H | [Hc [i [Hr Hi]]]].
      * destruct b; cbn [negb] in H; [destruct H|].
        apply in_map_iff in H. destruct H as [k [E Hk]].
        injection E as <- <-. apply in_seq in Hk.
        split; [lia|]. exists 0. split; [lia | reflexivity].
      * split; [exact Hc|]. exists (S i). split; [lia | exact Hi].
    + intros [Hc [[|i] [Hr Hi]]].
      * cbn [nth_error] in Hi. injection Hi as ->. left. cbn [negb].
        apply in_map_iff. exists (Z.to_nat c).
        split; [f_equal; lia | apply in_seq; lia].
      * right. split; [exact Hc|]. exists i. split; [lia | exact Hi].
Qed.

Lemma highlight_length (ncols : nat) (valid : list bool) (row_idx : Z) :
  List.length (highlight ncols row_idx valid)
  = List.length (filter negb valid) * ncols.
Proof.
  revert row_idx. induction valid as [|b rest IH]; intros row_idx;
    cbn [highlight filter]; [reflexivity|].
  rewrite length_app, IH. destruct b; cbn [negb List.length]; [reflexivity|].
  rewrite length_map, length_seq. lia.
Qed.

Lemma analyze_csv_inv (ncols : nat) (col : list (option pystr)) (df : Report) :
  analyze_csv ncols col = Return df ->
  exists results,
    apply_validate (clean_column col) = Return results /\
    df = mkReport (clean_column col) (map is_valid results)
           (map category results) (map note results)
           (highlight ncols 2 (map is_valid results)).
Proof.
  unfold analyze_csv. cbv zeta.
  destruct (apply_validate (clean_column col)) as [results|e]; cbn [bind];
    [|discriminate].
  intros H. injection H as <-. exists results. split; reflexivity.
Qed.

(** The row of the report that comes from one cell of the column. *)
Lemma analyze_csv_row (ncols : nat) (col : list (option pystr)) (df : Report)
      (i : nat) (cell : option pystr) :
  analyze_csv ncols col = Return df -> nth_error col i = Some cell ->
  exists r,
    validate_mmsi
      (Some (str_strip (match cell with Some s => s | None => [] end)))
    = Return r /\
    nth_error (mmsi_valid df) i = Some (is_valid r) /\
    nth_error (mmsi_category df) i = Some (category r) /\
    nth_error (mmsi_note df) i = Some (note r).
Proof.
  intros H Hcell. destruct (analyze_csv_inv _ _ _ H) as [results [Ha ->]].
  cbn [mmsi_valid mmsi_category mmsi_note].
  apply apply_validate_nth in Ha. destruct Ha as [_ Hnth].
  assert (Hc : nth_error (clean_column col) i
               = Some (str_strip (match cell with Some s => s | None => [] end))).
  { unfold clean_column.
    exact (map_nth_error
             (fun v => str_strip (match v with Some s => s | None => [] end))
             i col Hcell). }
  destruct (Hnth _ _ Hc) as [r [Hr Hv]].
  exists r. split; [exact Hv|].
  split; [|split]; apply map_nth_error; exact Hr.
Qed.

Lemma nondigit_trimmed (s : pystr) :
  Exists (fun c => Unicode.isdigit c = false) (str_strip s) ->
  validate_mmsi (Some (str_strip s))
  = Return (mkResult false (lit "unknown")
              (lit "Mengandung karakter non-digit: " ++ str_strip s)).
Proof.
  intros H. unfold validate_mmsi. cbv zeta. rewrite str_strip_idem.
  destruct (str_eqb (str_strip s) []) eqn:E.
  - apply str_eqb_nil in E. rewrite E in H. inversion H.
  - rewrite (str_isdigit_exists _ H). reflexivity.
Qed.

Lemma blank_trimmed (s : pystr) :
  Forall (fun c => Unicode.isspace c = true) s -> str_strip s = [].
Proof.
  intros H. unfold str_strip. rewrite (str_lstrip_blank s H). reflexivity.
Qed.

(** X11. The report has one row per input row, in the input order: its
    [mmsi] column is the input column with missing values made empty and
    every value trimmed, and row [i] of the three result columns holds the
    fields of the classification of that trimmed value. *)
Theorem report_rows (ncols : nat) (col : list (option pystr)) (df : Report) :
  analyze_csv ncols col = Return df ->
  mmsi df = clean_column col /\
  List.length (mmsi df) = List.length col /\
  List.length (mmsi_valid df) = List.length col /\
  List.length (mmsi_category df) = List.length col /\
  List.length (mmsi_note df) = List.length col /\
  forall i cell, nth_error col i = Some cell ->
    exists r,
      validate_mmsi
        (Some (str_strip (match cell with Some s => s | None => [] end)))
      = Return r /\
      nth_error (mmsi_valid df) i = Some (is_valid r) /\
      nth_error (mmsi_category df) i = Some (category r) /\
      nth_error (mmsi_note df) i = Some (note r).
Proof.
  intros H. pose proof (analyze_csv_row ncols col df) as Hrow.
  destruct (analyze_csv_inv _ _ _ H) as [results [Ha E]].
  apply apply_validate_nth in Ha. destruct Ha as [Hlen _].
  assert (Hc : List.length (clean_column col) = List.length col)
    by (unfold clean_column; apply length_map).
  rewrite Hc in Hlen. subst df.
  cbn [mmsi mmsi_valid mmsi_category mmsi_note] in *.
  rewrite !length_map.
  split; [reflexivity|]. split; [exact Hc|]. split; [exact Hlen|].
  split; [exact Hlen|]. split; [exact Hlen|].
  intros i cell Hcell. exact (Hrow i cell H Hcell).
Qed.

Lemma report_rows_witness :
  exists df,
    analyze_csv 7 [Some (lit " 201000000"); None; Some (lit "12x")] = Return df /\
    mmsi df = [lit "201000000"; []; lit "12x"] /\
    mmsi_valid df = [true; false; false].
Proof.
  eexists. split; [reflexivity|].
  split.
  - exact (proj1 (report_rows 7 [Some (lit " 201000000"); None; Some (lit "12x")]
                    _ eq_refl)).
  - reflexivity.
Defined.





(** X14. The cells that receive the fill are those of the invalid rows, all
    columns from 1 to the number of columns: cell (r, c) is filled exactly
    when c is such a column and r is the sheet row, two more than the
    position in the frame, of a row whose [mmsi_valid] is false. *)
Theorem filled_cells (ncols : nat) (col : list (option pystr)) (df : Report)
        (r c : Z) :
  analyze_csv ncols col = Return df ->
  (In (r, c) (filled df) <->
   (1 <= c <= Z.of_nat ncols)%Z /\
   exists i, r = (Z.of_nat i + 2)%Z /\ nth_error (mmsi_valid df) i = Some false).
Proof.
  intros H. destruct (analyze_csv_inv _ _ _ H) as [results [_ ->]].
  cbn [filled mmsi_valid]. rewrite highlight_in.
  split; intros [Hc [i [Hr Hi]]]; (split; [exact Hc|]); exists i;
    (split; [lia | exact Hi]).
Qed.

Lemma filled_cells_witness :
  In (3, 7)%Z (highlight 7 2 [true; false; false]) <->
  (1 <= 7 <= Z.of_nat 7)%Z /\
  exists i, 3%Z = (Z.of_nat i + 2)%Z /\
            nth_error [true; false; false] i = Some false.
Proof.
  exact (filled_cells 7 [Some (lit " 201000000"); None; Some (lit "12x")]
           (mkReport [lit "201000000"; []; lit "12x"] [true; false; false]
              [lit "ship_station"; lit "unknown"; lit "unknown"]
              [lit "MID 201"; lit "MMSI kosong";
               lit "Mengandung karakter non-digit: 12x"]
              (highlight 7 2 [true; false; false]))
           3%Z 7%Z eq_refl).
Defined.

(** X15. The counts that [main] prints agree with the report: the total is
    the number of input rows, the invalid count is at most the total, the
    rows not counted as invalid are the valid ones, and the number of filled
    cells is the invalid count times the number of columns. *)
Theorem report_counts (ncols : nat) (col : list (option pystr)) (df : Report) :
  analyze_csv ncols col = Return df ->
  total df = List.length col /\
  invalid_count df <= total df /\
  invalid_count df + List.length (filter (fun b => b) (mmsi_valid df))
  = total df /\
  List.length (filled df) = invalid_count df * ncols.
Proof.
  intros H. destruct (analyze_csv_inv _ _ _ H) as [results [Ha ->]].
  apply apply_validate_nth in Ha. destruct Ha as [Hlen _].
  unfold total, invalid_count. cbn [mmsi mmsi_valid filled].
  assert (Hc : List.length (clean_column col) = List.length col)
    by (unfold clean_column; apply length_map).
  assert (Hsum : forall l : list bool,
             List.length (filter negb l)
             + List.length (filter (fun b => b) l) = List.length l).
  { induction l as [|b l IH]; [reflexivity|].
    destruct b; cbn [filter negb List.length]; lia. }
  pose proof (Hsum (map is_valid results)) as Hs.
  rewrite length_map in Hs.
  split; [exact Hc|]. split; [lia|]. split; [lia|].
  apply highlight_length.
Qed.

Lemma report_counts_witness :
  exists df,
    analyze_csv 7 [Some (lit " 201000000"); None; Some (lit "12x")] = Return df /\
    total df = 3 /\ invalid_count df = 2 /\ List.length (filled df) = 14.
Proof.
  eexists. split; [reflexivity|].
  pose proof (report_counts 7 [Some (lit " 201000000"); None; Some (lit "12x")]
                _ eq_refl) as [Ht _].
  split; [exact Ht|]. split; reflexivity.
Defined.

(** X16. A row whose value is missing, or is white space only, is reported
    as invalid, with category unknown and note "MMSI kosong", and the whole
    of its sheet row is filled. *)
Theorem missing_value_row (ncols : nat) (col : list (option pystr))
        (df : Report) (i : nat) (cell : option pystr) :
  analyze_csv ncols col = Return df -> nth_error col i = Some cell ->
  (forall s, cell = Some s -> Forall (fun c => Unicode.isspace c = true) s) ->
  nth_error (mmsi df) i = Some [] /\
  nth_error (mmsi_valid df) i = Some false /\
  nth_error (mmsi_category df) i = Some (lit "unknown") /\
  nth_error (mmsi_note df) i = Some (lit "MMSI kosong") /\
  forall c, (1 <= c <= Z.of_nat ncols)%Z -> In (Z.of_nat i + 2, c)%Z (filled df).
Proof.
  intros H Hcell Hblank.
  assert (Ht : str_strip (match cell with Some s => s | None => [] end) = []).
  { destruct cell as [s|]; [apply blank_trimmed, Hblank; reflexivity|].
    reflexivity. }
  destruct (analyze_csv_row _ _ _ _ _ H Hcell) as [r [Hv [H1 [H2 H3]]]].
  rewrite Ht in Hv. injection Hv as <-.
  cbn [is_valid category note] in H1, H2, H3.
  destruct (analyze_csv_inv _ _ _ H) as [results [_ E]].
  split.
  { rewrite E. cbn [mmsi]. unfold clean_column.
    pose proof (map_nth_error
                  (fun v => str_strip (match v with Some s => s | None => [] end))
                  i col Hcell) as M.
    cbv beta in M. rewrite Ht in M. exact M. }
  split; [exact H1|]. split; [exact H2|]. split; [exact H3|].
  intros c Hc. rewrite E. cbn [filled]. apply highlight_in.
  split; [exact Hc|]. exists i. split; [lia|].
  rewrite E in H1. exact H1.
Qed.

Lemma missing_value_row_witness :
  exists df,
    analyze_csv 7 [Some (lit "201000000"); None; Some (lit "  ")] = Return df /\
    nth_error (mmsi_note df) 2 = Some (lit "MMSI kosong") /\
    In (4, 1)%Z (filled df).
Proof.
  eexists. split; [reflexivity|].
  assert (Hb : forall s, Some (lit "  ") = Some s ->
                         Forall (fun c => Unicode.isspace c = true) s)
    by (intros s E; injection E as <-; repeat constructor).
  pose proof (missing_value_row 7
                [Some (lit "201000000"); None; Some (lit "  ")] _ 2
                (Some (lit "  ")) eq_refl eq_refl Hb)
    as [_ [_ [_ [Hn Hf]]]].
  split; [exact Hn|]. apply (Hf 1%Z). lia.
Defined.

(** X17. In the report the note of a non-digit value quotes the value
    trimmed: the column is trimmed before the classifier sees it, so the
    white space that a direct call would quote is gone. *)
Theorem report_quotes_trimmed_value (ncols : nat) (col : list (option pystr))
        (df : Report) (i : nat) (s : pystr) :
  analyze_csv ncols col = Return df -> nth_error col i = Some (Some s) ->
  Exists (fun c => Unicode.isdigit c = false) (str_strip s) ->
  nth_error (mmsi_valid df) i = Some false /\
  nth_error (mmsi_category df) i = Some (lit "unknown") /\
  nth_error (mmsi_note df) i
  = Some (lit "Mengandung karakter non-digit: " ++ str_strip s).
Proof.
  intros H Hcell Hnd.
  destruct (analyze_csv_row _ _ _ _ _ H Hcell) as [r [Hv [H1 [H2 H3]]]].
  rewrite (nondigit_trimmed s Hnd) in Hv. injection Hv as <-.
  cbn [is_valid category note] in H1, H2, H3.
  split; [exact H1|]. split; [exact H2 | exact H3].
Qed.

Lemma report_quotes_trimmed_value_witness :
  exists df,
    analyze_csv 7 [Some (lit " 20100000a")] = Return df /\
    nth_error (mmsi_note df) 0
    = Some (lit "Mengandung karakter non-digit: 20100000a").
Proof.
  eexists. split; [reflexivity|].
  refine (proj2 (proj2 (report_quotes_trimmed_value 7
                          [Some (lit " 20100000a")] _ 0 (lit " 20100000a")
                          eq_refl eq_refl _))).
  change (str_strip (lit " 20100000a")) with (lit "20100000a").
  cbn [lit]. do 8 apply Exists_cons_tl. apply Exists_cons_hd. reflexivity.
Defined.
